(** * Data Bridges repository: retry, re-authentication and pagination

    A shallow embedding of [src/data_bridges_repository_impl.py]
    (class [DataBridgesRepositoryImpl]) and the properties of its fetch
    orchestration.

    Python values are a small inductive type, dictionaries are stdpp finite
    maps, and the methods of the class are computations in a state, exception
    and output monad: the state is the repository instance, the exception is
    the Python exception in flight, and the output is the chronological list
    of the effects the method performed on its collaborators (remote calls,
    token requests, sleeps, log records, client constructions, pool
    submissions). *)

From Stdlib Require Import ZArith String List Lia.
From stdpp Require Import base option list gmap strings.

Local Open Scope string_scope.
Local Open Scope Z_scope.
Local Open Scope list_scope.

(** ** Python values *)

(** The values that flow through the repository: [None], integers, strings,
    lists, dictionaries, instances of the generated client's response
    classes, given by their attribute dictionary ([__dict__]), and the
    built-in methods of lists and dictionaries, such as the [items] of a
    dictionary.  Keyword arguments ([**params]) are a dictionary
    [gmap string pyval]. *)
#[warnings="-register-all"]
Inductive pyval : Type :=
  | PNone
  | PInt (z : Z)
  | PStr (s : string)
  | PList (l : list pyval)
  | PDict (d : gmap string pyval)
  | PObject (attrs : gmap string pyval)
  | PBuiltin (name : string).

(** ** Exceptions *)

Inductive exn : Type :=
  | ApiException (status : Z)
  | Exception (msg : string)
  | AttributeError
  | KeyError
  | TypeError
  | ValueError
  | ZeroDivisionError.

Inductive Result (A : Type) : Type :=
  | Ret (a : A)
  | Raise (e : exn).
Arguments Ret {A} a.
Arguments Raise {A} e.

(** ** Attributes *)

(** The public methods of the built-in containers. *)
Definition dict_methods : list string :=
  ["clear"; "copy"; "fromkeys"; "get"; "items"; "keys"; "pop"; "popitem";
   "setdefault"; "update"; "values"].

Definition list_methods : list string :=
  ["append"; "clear"; "copy"; "count"; "extend"; "index"; "insert"; "pop";
   "remove"; "reverse"; "sort"].

(** [hasattr(v, name)] and [getattr].  An instance has the attributes of its
    dictionary; a dictionary and a list have their methods, so that a
    dictionary has [items]; [None], numbers and strings have no attribute of
    a name that the class asks for. *)
Definition getattr (v : pyval) (name : string) : option pyval :=
  match v with
  | PObject attrs => attrs !! name
  | PDict _ =>
      if bool_decide (name ∈ dict_methods) then Some (PBuiltin name) else None
  | PList _ =>
      if bool_decide (name ∈ list_methods) then Some (PBuiltin name) else None
  | _ => None
  end.

Definition hasattr (v : pyval) (name : string) : bool :=
  match getattr v name with
  | Some _ => true
  | None => false
  end.

(** [v.name]. *)
Definition attribute (v : pyval) (name : string) : Result pyval :=
  match getattr v name with
  | Some a => Ret a
  | None => Raise AttributeError
  end.

(** [hasattr(v, '__dict__')]: true of instances, false of [None], numbers,
    strings, lists, dictionaries and built-in methods. *)
Definition has__dict__ (v : pyval) : bool :=
  match v with
  | PObject _ => true
  | _ => false
  end.

(** ** The endpoint enumeration *)

Inductive EndpointType : Type :=
  | CURRENCY_USD_QUOTE
  | ECONOMIC_DATA_LIST
  | ECONOMIC_DATA_VALUES.

#[global] Instance EndpointType_eq_dec : EqDecision EndpointType.
Proof. solve_decision. Defined.

#[global] Instance EndpointType_countable : Countable EndpointType.
Proof.
  refine (inj_countable'
    (fun e => match e with
              | CURRENCY_USD_QUOTE => 0%nat
              | ECONOMIC_DATA_LIST => 1%nat
              | ECONOMIC_DATA_VALUES => 2%nat
              end)
    (fun n => match n with
              | 0%nat => CURRENCY_USD_QUOTE
              | 1%nat => ECONOMIC_DATA_LIST
              | _ => ECONOMIC_DATA_VALUES
              end) _).
  intros []; reflexivity.
Defined.

(** [member.value]: the scope label of a member. *)
Definition value (e : EndpointType) : string :=
  match e with
  | CURRENCY_USD_QUOTE => "vamdatabridges_currency-usdindirectquotation_get"
  | ECONOMIC_DATA_LIST => "vamdatabridges_economicdata-indicatorlist_get"
  | ECONOMIC_DATA_VALUES => "vamdatabridges_economicdata_get"
  end.

(** ** Collaborators, effects and the repository instance *)

(** A bound method of an API instance: the operation it names and the
    [ApiClient] object its instance was built on. *)
Record method : Type := Method {
  operation : string;
  bound_client : nat
}.

Inductive level : Type := INFO | WARNING | ERROR.

(** The log records of the class, one constructor per [logger] call. *)
Inductive message : Type :=
  | TokenRefreshCalled
  | TokenRefreshed
  | TokenRefreshRetrying (status wait_time : Z)
  | TokenRefreshFailed (e : exn)
  | TokenRefreshUnexpected (e : exn)
  | InvalidEndpoint (endpoint : EndpointType)
  | TokenExpired
  | RetryingWithBackoff (e : exn)
  | ApiExceptionLogged (e : exn)
  | ErrorFetchingData (e : exn)
  | RetryingIn (wait_time : Z)
  | TotalPages (params : gmap string pyval)
      (page_size total_pages total_items : pyval)
  | FetchingPage (scope : string) (params : gmap string pyval)
  | NoResponseData.

(** What a method does to the outside world, in the order it does it. *)
Inductive event : Type :=
  | EvCall (m : method) (params : gmap string pyval)
  | EvToken (key secret : string) (scopes : list string)
  | EvSleep (seconds : Z)
  | EvLog (lvl : level) (msg : message)
  | EvApiClient (client : nat)
  | EvSubmit (endpoint : EndpointType) (params : gmap string pyval).

(** The two external collaborators.  The transport answers the [n]-th
    operation invoked through it, the token provider the [n]-th refresh
    requested from it, each with a value or a raised exception. *)
Record Env : Type := {
  transport : nat -> method -> gmap string pyval -> Result pyval;
  token_provider : nat -> string -> string -> list string -> Result string
}.

(** The instance ([self]) together with the counters that index the
    collaborators' answers. *)
Record Repo : Type := {
  key : string;
  secret : string;
  scopes : list string;
  access_token : option string;
  api_client : nat;
  api_instances : nat;
  endpoint_dict : gmap EndpointType method;
  remote_calls : nat;
  token_calls : nat
}.

(** ** The monad of methods *)

Definition M (A : Type) : Type := Repo -> Result A * Repo * list event.

Definition ret {A} (a : A) : M A := fun self => (Ret a, self, []).

Definition raise {A} (e : exn) : M A := fun self => (Raise e, self, []).

Definition bind {A B} (m : M A) (k : A -> M B) : M B := fun self =>
  match m self with
  | (Ret a, self', out) =>
      match k a self' with
      | (r, self'', out') => (r, self'', out ++ out')
      end
  | (Raise e, self', out) => (Raise e, self', out)
  end.

(** [try: m except ... as e: handler e]; an exception raised by the handler
    itself is not caught again. *)
Definition try_except {A} (m : M A) (handler : exn -> M A) : M A := fun self =>
  match m self with
  | (Ret a, self', out) => (Ret a, self', out)
  | (Raise e, self', out) =>
      match handler e self' with
      | (r, self'', out') => (r, self'', out ++ out')
      end
  end.

(** A future: the task runs to its end and its outcome, value or exception,
    is kept for [future.result()]. *)
Definition capture {A} (m : M A) : M (Result A) := fun self =>
  match m self with
  | (r, self', out) => (Ret r, self', out)
  end.

Definition lift {A} (r : Result A) : M A := fun self => (r, self, []).

Definition emit (ev : event) : M unit := fun self => (Ret tt, self, [ev]).

Definition get_self : M Repo := fun self => (Ret self, self, []).

Definition modify (f : Repo -> Repo) : M unit := fun self => (Ret tt, f self, []).

(** stdpp's monad notations: [x ← m; k] and [m;; k]. *)
#[global] Instance M_ret : MRet M := @ret.
#[global] Instance M_bind : MBind M := fun A B k m => bind m k.

Definition sleep (seconds : Z) : M unit := emit (EvSleep seconds).

Definition log (lvl : level) (msg : message) : M unit := emit (EvLog lvl msg).

(** ** Field updates of the instance *)

Definition set_access_token (token : string) (self : Repo) : Repo :=
  {| key := key self; secret := secret self; scopes := scopes self;
     access_token := Some token;
     api_client := api_client self; api_instances := api_instances self;
     endpoint_dict := endpoint_dict self;
     remote_calls := remote_calls self; token_calls := token_calls self |}.

Definition set_api_client (client : nat) (self : Repo) : Repo :=
  {| key := key self; secret := secret self; scopes := scopes self;
     access_token := access_token self;
     api_client := client; api_instances := api_instances self;
     endpoint_dict := endpoint_dict self;
     remote_calls := remote_calls self; token_calls := token_calls self |}.

Definition set_api_instances (client : nat) (self : Repo) : Repo :=
  {| key := key self; secret := secret self; scopes := scopes self;
     access_token := access_token self;
     api_client := api_client self; api_instances := client;
     endpoint_dict := endpoint_dict self;
     remote_calls := remote_calls self; token_calls := token_calls self |}.

Definition count_remote_call (self : Repo) : Repo :=
  {| key := key self; secret := secret self; scopes := scopes self;
     access_token := access_token self;
     api_client := api_client self; api_instances := api_instances self;
     endpoint_dict := endpoint_dict self;
     remote_calls := S (remote_calls self); token_calls := token_calls self |}.

Definition count_token_call (self : Repo) : Repo :=
  {| key := key self; secret := secret self; scopes := scopes self;
     access_token := access_token self;
     api_client := api_client self; api_instances := api_instances self;
     endpoint_dict := endpoint_dict self;
     remote_calls := remote_calls self; token_calls := S (token_calls self) |}.

(** ** Class constants *)

Definition DATA_BRIDGES_THREADS : Z := 5.
Definition CURRENT_MAX_DATA_BRIDGES_PAGE_SIZE : Z := 1000.

(** The statuses after which a call is tried again, as the three membership
    tests of the class spell them. *)
Definition retry_statuses : list Z := [429; 500; 502; 503; 504].

Definition retryable (status : Z) : bool :=
  bool_decide (status ∈ retry_statuses).

(** ** Python operators *)

(** [a + b], [a - b] and [a // b].  Integer division floors, as [Z.div]
    does, and raises on a zero divisor. *)
Definition py_add (a b : pyval) : Result pyval :=
  match a, b with
  | PInt x, PInt y => Ret (PInt (x + y))
  | PStr x, PStr y => Ret (PStr (x +:+ y))
  | PList x, PList y => Ret (PList (x ++ y))
  | _, _ => Raise TypeError
  end.

Definition py_sub (a b : pyval) : Result pyval :=
  match a, b with
  | PInt x, PInt y => Ret (PInt (x - y))
  | _, _ => Raise TypeError
  end.

Definition py_floordiv (a b : pyval) : Result pyval :=
  match a, b with
  | PInt x, PInt y =>
      if bool_decide (y = 0) then Raise ZeroDivisionError
      else Ret (PInt (x / y))
  | _, _ => Raise TypeError
  end.

(** [range(start, stop)], run through as a list. *)
Definition py_range (start stop : pyval) : Result (list Z) :=
  match start, stop with
  | PInt a, PInt b =>
      Ret (map (fun i => a + Z.of_nat i) (seq 0 (Z.to_nat (b - a))))
  | _, _ => Raise TypeError
  end.

(** [s == v] for a string [s]: a string equals only an equal string. *)
Definition str_eq (s : string) (v : pyval) : bool :=
  match v with
  | PStr t => bool_decide (s = t)
  | _ => false
  end.

(** [s in l] for a string [s] and a list [l]. *)
Definition str_in_list (s : string) (l : list pyval) : bool :=
  existsb (str_eq s) l.

(** [d[name]]. *)
Definition subscript (d : gmap string pyval) (name : string) : Result pyval :=
  match d !! name with
  | Some v => Ret v
  | None => Raise KeyError
  end.

(** [obj.__dict__]. *)
Definition __dict__ (obj : pyval) : Result pyval :=
  match obj with
  | PObject attrs => Ret (PDict attrs)
  | _ => Raise AttributeError
  end.

(** ** The table library *)

(** A [DataFrame] is kept as its rows.  The constructor is modelled on what
    the repository hands it.  Nothing or [None] gives the empty table.  A
    list gives one row per element; when its first element is a dictionary
    it is read as a list of records, and when its first element is a list,
    as a list of rows, and an element of another kind is then rejected.
    An argument that is no list is rejected, as a built-in method is. *)
Definition DataFrame : Type := list pyval.

Definition pd_DataFrame_empty : DataFrame := [].

Definition is_dict (v : pyval) : bool :=
  match v with
  | PDict _ => true
  | _ => false
  end.

Definition is_list (v : pyval) : bool :=
  match v with
  | PList _ => true
  | _ => false
  end.

(** [None], a number or a string: a value that is no container and no
    instance. *)
Definition scalar (v : pyval) : bool :=
  match v with
  | PNone | PInt _ | PStr _ => true
  | _ => false
  end.

Definition pd_DataFrame (data : pyval) : Result DataFrame :=
  match data with
  | PNone => Ret []
  | PList rows =>
      match rows with
      | PDict _ :: _ =>
          if forallb is_dict rows then Ret rows else Raise TypeError
      | PList _ :: _ =>
          if forallb is_list rows then Ret rows else Raise TypeError
      | _ => Ret rows
      end
  | _ => Raise ValueError
  end.

(** [pd.concat([a, b], ignore_index=True)]. *)
Definition pd_concat (a b : DataFrame) : DataFrame := a ++ b.

(** ** Item normalisation *)

(** [[obj.__dict__ for obj in response_items]]. *)
Fixpoint dicts_of (response_items : list pyval) : Result (list pyval) :=
  match response_items with
  | [] => Ret []
  | obj :: rest =>
      match __dict__ obj with
      | Raise e => Raise e
      | Ret d =>
          match dicts_of rest with
          | Raise e => Raise e
          | Ret ds => Ret (d :: ds)
          end
      end
  end.

(** The three tests of the condition, in order: the argument is a list, the
    list is not empty, its element 0 has a [__dict__]. *)
Definition flattens (response_items : pyval) : bool :=
  match response_items with
  | PList l =>
      match l with
      | [] => false
      | first :: _ => has__dict__ first
      end
  | _ => false
  end.

Definition normalize_items (response_items : pyval) : Result pyval :=
  if flattens response_items then
    match response_items with
    | PList l =>
        match dicts_of l with
        | Ret ds => Ret (PList ds)
        | Raise e => Raise e
        end
    | _ => Ret response_items
    end
  else Ret response_items.

(** ** Token refresh and single-page fetch *)

Section Methods.

Variable env : Env.

(** [endpoint_method] applied to the keyword arguments: one operation
    invoked on the transport. *)
Definition invoke (endpoint_method : method) (params : gmap string pyval)
  : M pyval := fun self =>
  (transport env (remote_calls self) endpoint_method params,
   count_remote_call self,
   [EvCall endpoint_method params]).

(** [WfpApiToken(api_key, api_secret).refresh(scopes)]. *)
Definition token_refresh (key secret : string) (scopes : list string)
  : M string := fun self =>
  (token_provider env (token_calls self) key secret scopes,
   count_token_call self,
   [EvToken key secret scopes]).

(** The body of [for attempt in range(max_retries)] of
    [_refresh_access_token], over the attempts still to run; falling off
    the loop raises. *)
Fixpoint refresh_attempts (backoff_factor : Z) (attempts : list nat)
    (key secret : string) (scopes : list string) : M unit :=
  match attempts with
  | [] =>
      raise (Exception
        "Max retries reached while trying to refresh the access token.")
  | attempt :: rest =>
      try_except
        (token ← token_refresh key secret scopes;
         modify (set_access_token token);;
         log INFO TokenRefreshed)
        (fun e =>
           match e with
           | ApiException status =>
               if retryable status then
                 let wait_time := backoff_factor ^ Z.of_nat attempt in
                 log WARNING (TokenRefreshRetrying status wait_time);;
                 sleep wait_time;;
                 refresh_attempts backoff_factor rest key secret scopes
               else
                 log ERROR (TokenRefreshFailed e);;
                 raise e
           | _ =>
               log ERROR (TokenRefreshUnexpected e);;
               raise e
           end)
  end.

Definition _refresh_access_token (key secret : string) (scopes : list string)
  : M unit :=
  log INFO TokenRefreshCalled;;
  let max_retries := 5%nat in
  let backoff_factor := 2 in
  refresh_attempts backoff_factor (seq 0 max_retries) key secret scopes.

(** The loop of [_retry_with_backoff]. *)
Fixpoint retry_attempts (backoff_factor : Z) (attempts : list nat)
    (endpoint_method : method) (params : gmap string pyval) : M pyval :=
  match attempts with
  | [] => raise (Exception "Max retries reached")
  | attempt :: rest =>
      try_except
        (invoke endpoint_method params)
        (fun e =>
           match e with
           | ApiException status =>
               if retryable status then
                 let wait_time := backoff_factor ^ Z.of_nat attempt in
                 log INFO (RetryingIn wait_time);;
                 sleep wait_time;;
                 retry_attempts backoff_factor rest endpoint_method params
               else
                 raise e
           | _ => raise e
           end)
  end.

Definition _retry_with_backoff (endpoint_method : method)
    (params : gmap string pyval) : M pyval :=
  let max_retries := 10%nat in
  let backoff_factor := 2 in
  retry_attempts backoff_factor (seq 0 max_retries) endpoint_method params.

(** [self.api_client = ApiClient(self.configuration)]: a new client object. *)
Definition new_api_client : M unit :=
  self ← get_self;
  let client := S (api_client self) in
  emit (EvApiClient client);;
  modify (set_api_client client).

(** [_set_api_instances]: the API instances are built again on the given
    client.  [endpoint_dict] is not touched: it keeps the bound methods it
    was given when the instance was constructed. *)
Definition _set_api_instances (client : nat) : M unit :=
  modify (set_api_instances client).

Definition fetch_data_one_page (endpoint : EndpointType)
    (params : gmap string pyval) : M pyval :=
  self ← get_self;
  match endpoint_dict self !! endpoint with
  | None =>
      log ERROR (InvalidEndpoint endpoint);;
      ret PNone
  | Some endpoint_method =>
      try_except
        (invoke endpoint_method params)
        (fun e =>
           match e with
           | ApiException status =>
               if bool_decide (status = 401) then
                 log INFO TokenExpired;;
                 self ← get_self;
                 _refresh_access_token (key self) (secret self) (scopes self);;
                 new_api_client;;
                 self ← get_self;
                 _set_api_instances (api_client self);;
                 self ← get_self;
                 match endpoint_dict self !! endpoint with
                 | None => raise KeyError
                 | Some endpoint_method => invoke endpoint_method params
                 end
               else if retryable status then
                 log WARNING (RetryingWithBackoff e);;
                 _retry_with_backoff endpoint_method params
               else
                 log ERROR (ApiExceptionLogged e);;
                 raise e
           | _ =>
               log ERROR (ErrorFetchingData e);;
               raise e
           end)
  end.

(** ** Pagination *)

Definition get_total_pages (endpoint_type : EndpointType)
    (params : gmap string pyval) : M pyval :=
  res ← fetch_data_one_page endpoint_type params;
  if hasattr res "total_items" then
    total_items ← lift (attribute res "total_items");
    let page_size :=
      default (PInt CURRENT_MAX_DATA_BRIDGES_PAGE_SIZE)
              (params !! "page_size") in
    sum ← lift (py_add total_items page_size);
    numerator ← lift (py_sub sum (PInt 1));
    _total_pages ← lift (py_floordiv numerator page_size);
    log WARNING (TotalPages params page_size _total_pages total_items);;
    ret _total_pages
  else ret (PInt 1).

(** [endpoint_type] is a member of [EndpointType]: the log line reads its
    [value], which an identifier of another type does not have. *)
Definition fetch_one_data_bridges_page (endpoint_type : EndpointType)
    (params : gmap string pyval) : M DataFrame :=
  res ← fetch_data_one_page endpoint_type params;
  log INFO (FetchingPage (value endpoint_type) params);;
  if hasattr res "items" then
    items ← lift (attribute res "items");
    normalized_items ← lift (normalize_items items);
    lift (pd_DataFrame normalized_items)
  else
    log WARNING NoResponseData;;
    ret pd_DataFrame_empty.

(** [executor.submit] for every page of the range: each task gets a copy of
    [params] with its own page number. *)
Fixpoint submit_pages (endpoint_type : EndpointType)
    (params : gmap string pyval) (pages : list Z)
  : M (list (gmap string pyval)) :=
  match pages with
  | [] => ret []
  | page :: rest =>
      let page_params := <["page" := PInt page]> params in
      emit (EvSubmit endpoint_type page_params);;
      futures ← submit_pages endpoint_type params rest;
      ret (page_params :: futures)
  end.

(** The worker pool, under the schedule that runs the submitted tasks one
    after the other in submission order; the pool runs at most
    [DATA_BRIDGES_THREADS] of them at a time, a bound that plays no part
    under this schedule.  Every task runs, whatever the others do, and keeps
    its outcome in its future. *)
Fixpoint run_pool (endpoint_type : EndpointType)
    (futures : list (gmap string pyval)) : M (list (Result DataFrame)) :=
  match futures with
  | [] => ret []
  | page_params :: rest =>
      outcome ← capture (fetch_one_data_bridges_page endpoint_type page_params);
      outcomes ← run_pool endpoint_type rest;
      ret (outcome :: outcomes)
  end.

(** [for future in as_completed(futures)]: [future.result()] returns the
    task's table or raises the task's exception. *)
Fixpoint collect (all_data_df : DataFrame) (completed : list (Result DataFrame))
  : M DataFrame :=
  match completed with
  | [] => ret all_data_df
  | future :: rest =>
      res_df ← lift future;
      collect (pd_concat all_data_df res_df) rest
  end.

(** The loop over [as_completed(futures)] takes the futures in the order in
    which their tasks finish.  Here that order is the order of submission,
    the one of the schedule of [run_pool]; [fetch_all_as_completed] below
    is the same method under any order of completion. *)
Definition fetch_all_data_bridges_data (endpoint_type : EndpointType)
    (params : gmap string pyval) : M DataFrame :=
  let all_data_df := pd_DataFrame_empty in
  _total_pages ← get_total_pages endpoint_type params;
  let params :=
    if negb (str_in_list "page" [PDict params])
    then <["page" := PInt 1]> params
    else params in
  start ← lift (subscript params "page");
  stop ← lift (py_add _total_pages (PInt 1));
  pages ← lift (py_range start stop);
  futures ← submit_pages endpoint_type params pages;
  completed ← run_pool endpoint_type futures;
  collect all_data_df completed.

End Methods.

Arguments _retry_with_backoff : simpl never.
Arguments _refresh_access_token : simpl never.
Arguments fetch_data_one_page : simpl never.

(** ** The constructor *)

Definition set_credentials (key secret : string) (scopes : list string)
    (self : Repo) : Repo :=
  {| key := key; secret := secret; scopes := scopes;
     access_token := access_token self;
     api_client := api_client self; api_instances := api_instances self;
     endpoint_dict := endpoint_dict self;
     remote_calls := remote_calls self; token_calls := token_calls self |}.

(** [self.configuration = Configuration(host=self.HOST)]: a configuration
    that holds no token yet. *)
Definition new_configuration (self : Repo) : Repo :=
  {| key := key self; secret := secret self; scopes := scopes self;
     access_token := None;
     api_client := api_client self; api_instances := api_instances self;
     endpoint_dict := endpoint_dict self;
     remote_calls := remote_calls self; token_calls := token_calls self |}.

Definition set_endpoint_dict (d : gmap EndpointType method) (self : Repo)
  : Repo :=
  {| key := key self; secret := secret self; scopes := scopes self;
     access_token := access_token self;
     api_client := api_client self; api_instances := api_instances self;
     endpoint_dict := d;
     remote_calls := remote_calls self; token_calls := token_calls self |}.

(** [self._refresh_access_token(self.key, self.secret, self.scopes)]. *)
Definition refresh_own_token (env : Env) : M unit :=
  self ← get_self;
  _refresh_access_token env (key self) (secret self) (scopes self).

(** [__init__], run on the object under construction.  The dictionary is
    filled with the bound methods of the API instances that exist at that
    moment. *)
Definition __init__ (env : Env) (key secret : string) (scopes : list string)
  : M unit :=
  modify (set_credentials key secret scopes);;
  modify new_configuration;;
  refresh_own_token env;;
  new_api_client;;
  self ← get_self;
  _set_api_instances (api_client self);;
  self ← get_self;
  modify (set_endpoint_dict
    (<[CURRENCY_USD_QUOTE :=
         Method "currency_usd_indirect_quotation_get" (api_instances self)]>
     (<[ECONOMIC_DATA_LIST :=
          Method "economic_data_indicator_list_get" (api_instances self)]>
      (<[ECONOMIC_DATA_VALUES :=
           Method "economic_data_indicator_name_get" (api_instances self)]>
       ∅)))).

(** ** Members by label *)

(** The members in the order the class body defines them, which is the order
    in which [for member in cls] visits them. *)
Definition members : list EndpointType :=
  [CURRENCY_USD_QUOTE; ECONOMIC_DATA_LIST; ECONOMIC_DATA_VALUES].

Fixpoint from_label_loop (rest : list EndpointType) (label : string)
  : Result EndpointType :=
  match rest with
  | [] => Raise ValueError
  | member :: rest =>
      if bool_decide (value member = label) then Ret member
      else from_label_loop rest label
  end.

Definition from_label (label : string) : Result EndpointType :=
  from_label_loop members label.

(** ** Reading the output of a method *)

Definition is_log (ev : event) : bool :=
  match ev with
  | EvLog _ _ => true
  | _ => false
  end.

(** The effects on the collaborators and the clock, log records left out. *)
Definition effects (out : list event) : list event :=
  List.filter (fun ev => negb (is_log ev)) out.

(** The waits, in order. *)
Definition sleeps (out : list event) : list Z :=
  omap (fun ev => match ev with EvSleep z => Some z | _ => None end) out.

(** The operations invoked on the transport, in order. *)
Definition calls (out : list event) : list (method * gmap string pyval) :=
  omap (fun ev => match ev with EvCall m p => Some (m, p) | _ => None end) out.

(** The refreshes requested from the token provider. *)
Definition token_requests (out : list event) : nat :=
  length (List.filter
    (fun ev => match ev with EvToken _ _ _ => true | _ => false end) out).

(** The invocations of [_refresh_access_token], each of which announces
    itself in the log as its first statement. *)
Definition refresh_invocations (out : list event) : nat :=
  length (List.filter
    (fun ev => match ev with EvLog INFO TokenRefreshCalled => true | _ => false end)
    out).

(** The clients constructed. *)
Definition clients_built (out : list event) : list nat :=
  omap (fun ev => match ev with EvApiClient c => Some c | _ => None end) out.

(** The page numbers of the tasks handed to the pool, in submission order. *)
Definition submitted_pages (out : list event) : list (option pyval) :=
  omap (fun ev => match ev with
                  | EvSubmit _ p => Some (p !! "page")
                  | _ => None
                  end) out.

(** The instance after [k] more remote calls, or token requests. *)
Definition after_calls (k : nat) (self : Repo) : Repo :=
  Nat.iter k count_remote_call self.

Definition after_token_calls (k : nat) (self : Repo) : Repo :=
  Nat.iter k count_token_call self.

(** What a failed attempt of either loop leaves in the output. *)
Definition failed_call (m : method) (p : gmap string pyval) (attempt : nat)
  : list event :=
  [EvCall m p;
   EvLog INFO (RetryingIn (2 ^ Z.of_nat attempt));
   EvSleep (2 ^ Z.of_nat attempt)].

Definition failed_token (key secret : string) (scopes : list string)
    (status : Z) (attempt : nat) : list event :=
  [EvToken key secret scopes;
   EvLog WARNING (TokenRefreshRetrying status (2 ^ Z.of_nat attempt));
   EvSleep (2 ^ Z.of_nat attempt)].

(** The time spent waiting. *)
Definition total_sleep (out : list event) : Z :=
  foldr Z.add 0 (sleeps out).

(** The exceptions that [fetch_data_one_page] answers neither with a token
    refresh nor with the retry loop: every exception but an [ApiException]
    of status 401 or of a retried status. *)
Definition settled (e : exn) : Prop :=
  match e with
  | ApiException status => status <> 401 /\ retryable status = false
  | _ => True
  end.

(** The exceptions that end the retry loop at once. *)
Definition not_retried (e : exn) : Prop :=
  match e with
  | ApiException status => retryable status = false
  | _ => True
  end.

(** The table that [fetch_one_data_bridges_page] makes of a page result:
    the part of the method that follows the fetch, log records left out. *)
Definition page_table (res : pyval) : Result DataFrame :=
  if hasattr res "items" then
    match attribute res "items" with
    | Raise e => Raise e
    | Ret items =>
        match normalize_items items with
        | Raise e => Raise e
        | Ret normalized_items => pd_DataFrame normalized_items
        end
    end
  else Ret pd_DataFrame_empty.

(** [fetch_all_data_bridges_data] with the order of completion made
    explicit.  [as_completed(futures)] yields the futures in the order in
    which their tasks finish, which can be any order: here it is a function
    that reorders the completed futures.  [fetch_all_data_bridges_data] is
    the case in which the tasks finish in the order of their submission. *)
Definition fetch_all_as_completed (env : Env)
    (as_completed : list (Result DataFrame) -> list (Result DataFrame))
    (endpoint_type : EndpointType) (params : gmap string pyval) : M DataFrame :=
  let all_data_df := pd_DataFrame_empty in
  _total_pages ← get_total_pages env endpoint_type params;
  let params :=
    if negb (str_in_list "page" [PDict params])
    then <["page" := PInt 1]> params
    else params in
  start ← lift (subscript params "page");
  stop ← lift (py_add _total_pages (PInt 1));
  pages ← lift (py_range start stop);
  futures ← submit_pages endpoint_type params pages;
  completed ← run_pool env endpoint_type futures;
  collect all_data_df (as_completed completed).

(** The three components of a run. *)
Definition result {A} (run : Result A * Repo * list event) : Result A := run.1.1.
Definition final {A} (run : Result A * Repo * list event) : Repo := run.1.2.
Definition output {A} (run : Result A * Repo * list event) : list event := run.2.

(** ** Scenarios *)

(** [endpoint_dict] as the constructor fills it: one bound method per member,
    all on the API instances of the first client. *)
Definition constructed_endpoint_dict : gmap EndpointType method :=
  <[CURRENCY_USD_QUOTE := Method "currency_usd_indirect_quotation_get" 0]>
  (<[ECONOMIC_DATA_LIST := Method "economic_data_indicator_list_get" 0]>
  (<[ECONOMIC_DATA_VALUES := Method "economic_data_indicator_name_get" 0]> ∅)).

(** An instance right after construction. *)
Definition repository : Repo :=
  {| key := "key"; secret := "secret";
     scopes := map value
       [CURRENCY_USD_QUOTE; ECONOMIC_DATA_LIST; ECONOMIC_DATA_VALUES];
     access_token := Some "token-0";
     api_client := 0; api_instances := 0;
     endpoint_dict := constructed_endpoint_dict;
     remote_calls := 0; token_calls := 0 |}.

(** Collaborators that answer from a script, call after call, and with a
    fixed answer once the script is over. *)
Definition scripted {A} (answers : list (Result A)) (otherwise : Result A)
    (n : nat) : Result A :=
  nth n answers otherwise.

Definition scripted_env (answers : list (Result pyval)) (otherwise : Result pyval)
    (tokens : list (Result string)) (tokens_otherwise : Result string) : Env :=
  {| transport := fun n _ _ => scripted answers otherwise n;
     token_provider := fun n _ _ _ => scripted tokens tokens_otherwise n |}.

(** The keyword arguments of the example at the end of the source file. *)
Definition currency_params : gmap string pyval :=
  <["country_iso3" := PStr "NGA"]>
  (<["env" := PStr "prod"]> (<["page" := PInt 3]> ∅)).

(** A page result holding [total_items] and a list of [items]. *)
Definition page_result (total_items : Z) (items : list pyval) : pyval :=
  PObject (<["total_items" := PInt total_items]> (<["items" := PList items]> ∅)).

Definition quote (rate : Z) : pyval :=
  PObject (<["currency_name" := PStr "Naira"]> (<["value" := PInt rate]> ∅)).

(** The transport fails five times with one status, then answers. *)
Definition fails_five_times (status : Z) : Env :=
  scripted_env (repeat (Raise (ApiException status)) 5)
               (Ret (page_result 1 [quote 1500]))
               [] (Ret "token-1").

(** The transport always fails with status 429. *)
Definition always_429 : Env :=
  scripted_env [] (Raise (ApiException 429)) [] (Ret "token-1").

(** The token provider is down: every request meets status 503.  The
    transport rejects the token. *)
Definition provider_down : Env :=
  scripted_env [] (Raise (ApiException 401)) [] (Raise (ApiException 503)).

(** The token provider rejects the credentials with status 403. *)
Definition provider_rejects : Env :=
  scripted_env [] (Raise (ApiException 401)) [] (Raise (ApiException 403)).

(** The token has expired: the first call meets status 401, the calls after
    it answer, and the provider hands out a new token. *)
Definition token_expired : Env :=
  scripted_env [Raise (ApiException 401)] (Ret (page_result 1 [quote 1500]))
               [] (Ret "token-1").

(** An instance whose dictionary lacks one member of the enumeration. *)
Definition repository_without_values : Repo :=
  {| key := key repository; secret := secret repository;
     scopes := scopes repository;
     access_token := access_token repository;
     api_client := 0; api_instances := 0;
     endpoint_dict := delete ECONOMIC_DATA_VALUES constructed_endpoint_dict;
     remote_calls := 0; token_calls := 0 |}.

(** Every page answers with the given total and one item. *)
Definition serves (total_items : Z) : Env :=
  scripted_env [] (Ret (page_result total_items [quote 1500]))
               [] (Ret "token-1").

(** Every page answers with no total at all. *)
Definition serves_single_page : Env :=
  scripted_env [] (Ret (PObject (<["items" := PList [quote 1500]]> ∅)))
               [] (Ret "token-1").

(** Nothing matches the query: a total of zero and no items. *)
Definition serves_nothing : Env :=
  scripted_env [] (Ret (page_result 0 [])) [] (Ret "token-1").

(** An object on which no constructor has run yet. *)
Definition blank : Repo :=
  {| key := ""; secret := ""; scopes := [];
     access_token := None;
     api_client := 0; api_instances := 0;
     endpoint_dict := ∅;
     remote_calls := 0; token_calls := 0 |}.

(** The token provider meets two retried statuses, then answers. *)
Definition provider_recovers : Env :=
  scripted_env [] (Ret (page_result 1 [quote 1500]))
               [Raise (ApiException 503); Raise (ApiException 429)]
               (Ret "token-1").

(** The token provider meets a retried status, then cannot be reached. *)
Definition provider_unreachable : Env :=
  scripted_env [] (Ret (page_result 1 [quote 1500]))
               [Raise (ApiException 503); Raise (Exception "connection reset")]
               (Ret "token-1").

(** The transport knows no such resource: every call meets status 404. *)
Definition not_found : Env :=
  scripted_env [] (Raise (ApiException 404)) [] (Ret "token-1").

(** The token expires while the fetch backs off: statuses 429 and 503, then
    401. *)
Definition expires_during_backoff : Env :=
  scripted_env [Raise (ApiException 429); Raise (ApiException 503);
                Raise (ApiException 401)]
               (Ret (page_result 1 [quote 1500])) [] (Ret "token-1").

(** A transport that answers by the page asked for: 2500 items in three
    pages, of which the model keeps two items, one item and none. *)
Definition three_pages (gap : bool) (p : gmap string pyval) : Result pyval :=
  match p !! "page" with
  | Some (PInt 1) => Ret (page_result 2500 [quote 1; quote 2])
  | Some (PInt 2) =>
      if gap then Raise (ApiException 404)
      else Ret (page_result 2500 [quote 3])
  | Some (PInt 3) => Ret (page_result 2500 [])
  | _ => Raise (ApiException 404)
  end.

Definition paged : Env :=
  {| transport := fun _ _ p => three_pages false p;
     token_provider := fun _ _ _ _ => Ret "token-1" |}.

(** The same with page 2 missing. *)
Definition paged_with_gap : Env :=
  {| transport := fun _ _ p => three_pages true p;
     token_provider := fun _ _ _ _ => Ret "token-1" |}.

(** ** The retry loops *)

Ltac run_monad :=
  unfold mbind, M_bind, mret, M_ret, bind, try_except, ret, raise, lift,
    log, sleep, emit, modify, get_self; cbn.

Section Loops.

Variable env : Env.

Lemma after_calls_S k self :
  after_calls (S k) self = after_calls k (count_remote_call self).
Proof. unfold after_calls. apply Nat.iter_succ_r. Qed.

Lemma remote_calls_after_calls k self :
  remote_calls (after_calls k self) = (remote_calls self + k)%nat.
Proof.
  induction k as [|k IH].
  - cbn. lia.
  - change (after_calls (S k) self) with (count_remote_call (after_calls k self)).
    cbn [remote_calls count_remote_call]. rewrite IH. lia.
Qed.

Lemma endpoint_dict_after_calls k self :
  endpoint_dict (after_calls k self) = endpoint_dict self.
Proof. induction k as [|k IH]; cbn; [reflexivity | exact IH]. Qed.

(** A run of [k] attempts that all meet a retried status: the loop waits
    after each and goes on with the attempts that remain. *)
Lemma retry_attempts_prefix m p k :
  forall a rest self r self' out,
    (forall i, (i < k)%nat ->
       exists s, transport env (remote_calls self + i) m p
                 = Raise (ApiException s) /\ retryable s = true) ->
    retry_attempts env 2 rest m p (after_calls k self) = (r, self', out) ->
    retry_attempts env 2 (seq a k ++ rest) m p self
    = (r, self', flat_map (failed_call m p) (seq a k) ++ out).
Proof.
  induction k as [|k IH]; intros a rest self r self' out Hfail Hrest.
  - cbn in *. exact Hrest.
  - destruct (Hfail 0%nat) as (s & Hs & Hretry); [lia|].
    rewrite Nat.add_0_r in Hs.
    cbn [seq app retry_attempts flat_map].
    unfold try_except at 1, invoke at 1. rewrite Hs, Hretry.
    rewrite after_calls_S in Hrest.
    specialize (IH (S a) rest (count_remote_call self) r self' out).
    run_monad. run_monad. rewrite IH; [reflexivity| |exact Hrest].
    intros i Hi. destruct (Hfail (S i)) as (s' & Hs' & Hr'); [lia|].
    exists s'. split; [|exact Hr'].
    cbn. rewrite <- Hs'. f_equal. lia.
Qed.

Lemma after_token_calls_S k self :
  after_token_calls (S k) self = after_token_calls k (count_token_call self).
Proof. unfold after_token_calls. apply Nat.iter_succ_r. Qed.

Lemma token_calls_after_token_calls k self :
  token_calls (after_token_calls k self) = (token_calls self + k)%nat.
Proof.
  induction k as [|k IH].
  - cbn. lia.
  - change (after_token_calls (S k) self)
      with (count_token_call (after_token_calls k self)).
    cbn [token_calls count_token_call]. rewrite IH. lia.
Qed.

(** The same for the loop of [_refresh_access_token]: [k] requests that all
    meet a retried status. *)
Lemma refresh_attempts_prefix key secret scopes k :
  forall a rest self r self' out,
    (forall i, (i < k)%nat ->
       exists s, token_provider env (token_calls self + i) key secret scopes
                 = Raise (ApiException s) /\ retryable s = true) ->
    refresh_attempts env 2 rest key secret scopes (after_token_calls k self)
    = (r, self', out) ->
    exists statuses,
      length statuses = k
      /\ refresh_attempts env 2 (seq a k ++ rest) key secret scopes self
         = (r, self',
            flat_map (fun x => failed_token key secret scopes x.1 x.2)
                     (zip statuses (seq a k)) ++ out).
Proof.
  induction k as [|k IH]; intros a rest self r self' out Hfail Hrest.
  - exists []. split; [reflexivity|]. cbn in *. exact Hrest.
  - destruct (Hfail 0%nat) as (s & Hs & Hretry); [lia|].
    rewrite Nat.add_0_r in Hs.
    rewrite after_token_calls_S in Hrest.
    destruct (IH (S a) rest (count_token_call self) r self' out)
      as (statuses & Hlen & Hrun); [|exact Hrest|].
    { intros i Hi. destruct (Hfail (S i)) as (s' & Hs' & Hr'); [lia|].
      exists s'. split; [|exact Hr'].
      cbn. rewrite <- Hs'. f_equal. lia. }
    exists (s :: statuses). split; [cbn; lia|].
    cbn [seq app refresh_attempts flat_map zip zip_with].
    unfold try_except at 1. run_monad.
    rewrite Hs, Hretry, Hrun. reflexivity.
Qed.

End Loops.

(** ** Facts about the output of the loops *)

Lemma effects_app out1 out2 : effects (out1 ++ out2) = effects out1 ++ effects out2.
Proof. unfold effects. apply List.filter_app. Qed.

Lemma sleeps_app out1 out2 : sleeps (out1 ++ out2) = sleeps out1 ++ sleeps out2.
Proof. unfold sleeps. apply omap_app. Qed.

Lemma calls_app out1 out2 : calls (out1 ++ out2) = calls out1 ++ calls out2.
Proof. unfold calls. apply omap_app. Qed.

Lemma effects_failed_calls m p attempts :
  effects (flat_map (failed_call m p) attempts)
  = flat_map (fun j => [EvCall m p; EvSleep (2 ^ Z.of_nat j)]) attempts.
Proof.
  induction attempts as [|j attempts IH]; [reflexivity|].
  cbn [flat_map]. rewrite effects_app, IH. reflexivity.
Qed.

Lemma sleeps_failed_calls m p attempts :
  sleeps (flat_map (failed_call m p) attempts)
  = map (fun j => 2 ^ Z.of_nat j) attempts.
Proof.
  induction attempts as [|j attempts IH]; [reflexivity|].
  cbn [flat_map map]. rewrite sleeps_app, IH. reflexivity.
Qed.

Lemma calls_failed_calls m p attempts :
  calls (flat_map (failed_call m p) attempts) = map (fun _ => (m, p)) attempts.
Proof.
  induction attempts as [|j attempts IH]; [reflexivity|].
  cbn [flat_map map]. rewrite calls_app, IH. reflexivity.
Qed.

(** A retried status is not the status of an expired token. *)
Lemma retryable_not_401 status :
  retryable status = true -> bool_decide (status = 401) = false.
Proof.
  intros H. destruct (decide (status = 401)) as [->|Hne].
  - vm_compute in H. discriminate.
  - apply bool_decide_eq_false. exact Hne.
Qed.

Lemma retryable_elem_of status :
  retryable status = true <-> status ∈ retry_statuses.
Proof. unfold retryable. apply bool_decide_eq_true. Qed.

(** ** The page fetch under retried failures *)

(** The loop of [_retry_with_backoff] runs out of attempts when all ten
    meet a retried status. *)
Lemma retry_with_backoff_exhausted env m p self :
  (forall i, (i < 10)%nat ->
     exists s, transport env (remote_calls self + i) m p
               = Raise (ApiException s) /\ retryable s = true) ->
  _retry_with_backoff env m p self
  = (Raise (Exception "Max retries reached"), after_calls 10 self,
     flat_map (failed_call m p) (seq 0 10)).
Proof.
  intros Hfail. unfold _retry_with_backoff.
  rewrite <- (app_nil_r (seq 0 10)).
  rewrite (retry_attempts_prefix env m p 10 0 [] self
             (Raise (Exception "Max retries reached")) (after_calls 10 self) []);
    [rewrite !app_nil_r; reflexivity | exact Hfail | reflexivity].
Qed.

(** The loop returns the first answer it gets, after the failed attempts
    that precede it. *)
Lemma retry_with_backoff_succeeds env m p self response k :
  (k < 10)%nat ->
  (forall i, (i < k)%nat ->
     exists s, transport env (remote_calls self + i) m p
               = Raise (ApiException s) /\ retryable s = true) ->
  transport env (remote_calls self + k) m p = Ret response ->
  _retry_with_backoff env m p self
  = (Ret response, after_calls (S k) self,
     flat_map (failed_call m p) (seq 0 k) ++ [EvCall m p]).
Proof.
  intros Hk Hfail Hok. unfold _retry_with_backoff.
  replace 10%nat with (k + S (9 - k))%nat by lia.
  rewrite seq_app. cbn [seq Nat.add].
  apply retry_attempts_prefix; [exact Hfail|].
  cbn [retry_attempts]. unfold try_except, invoke.
  rewrite remote_calls_after_calls, Hok. reflexivity.
Qed.

(** The first call and the next [k] all meet a retried status and the call
    after them answers: the fetch returns that answer, after the first call,
    [k] failed attempts of the loop and the attempt that succeeded. *)
Lemma fetch_page_retries_then_succeeds env self endpoint params m response k :
  (k < 10)%nat ->
  endpoint_dict self !! endpoint = Some m ->
  (forall i, (i <= k)%nat ->
     exists s, transport env (remote_calls self + i) m params
               = Raise (ApiException s) /\ retryable s = true) ->
  transport env (remote_calls self + S k) m params = Ret response ->
  exists s0,
    transport env (remote_calls self) m params = Raise (ApiException s0)
    /\ fetch_data_one_page env endpoint params self
       = (Ret response, after_calls (S (S k)) self,
          EvCall m params
          :: EvLog WARNING (RetryingWithBackoff (ApiException s0))
          :: flat_map (failed_call m params) (seq 0 k) ++ [EvCall m params]).
Proof.
  intros Hk Hdict Hfail Hok.
  destruct (Hfail 0%nat) as (s0 & Hs0 & Hr0); [lia|].
  rewrite Nat.add_0_r in Hs0.
  exists s0. split; [exact Hs0|].
  assert (Hloop := retry_with_backoff_succeeds env m params
                     (count_remote_call self) response k Hk).
  rewrite <- !after_calls_S in Hloop.
  unfold fetch_data_one_page. run_monad. rewrite Hdict.
  unfold invoke at 1. rewrite Hs0, (retryable_not_401 _ Hr0), Hr0.
  rewrite Hloop; [reflexivity| |].
  - intros i Hi. destruct (Hfail (S i)) as (s & Hs & Hr); [lia|].
    exists s. split; [|exact Hr]. cbn. rewrite <- Hs. f_equal. lia.
  - cbn. rewrite <- Hok. f_equal. lia.
Qed.

(** ** Claims on the backoff of the page fetch *)

(** C1, as amended.  When the remote operation raises a status among 429,
    500, 502, 503 and 504 five times and then answers, [fetch_data_one_page]
    returns that answer after six calls and four waits of 1, 2, 4 and 8: the
    first retry follows the first failure at once, and each later retry
    follows the wait that the failure before it caused. *)
Theorem fetch_page_five_retried_failures env self endpoint params m response :
  endpoint_dict self !! endpoint = Some m ->
  (forall i, (i < 5)%nat ->
     exists s, transport env (remote_calls self + i) m params
               = Raise (ApiException s) /\ s ∈ retry_statuses) ->
  transport env (remote_calls self + 5) m params = Ret response ->
  exists out,
    fetch_data_one_page env endpoint params self
    = (Ret response, after_calls 6 self, out)
    /\ effects out
       = [EvCall m params;
          EvCall m params; EvSleep 1;
          EvCall m params; EvSleep 2;
          EvCall m params; EvSleep 4;
          EvCall m params; EvSleep 8;
          EvCall m params]
    /\ sleeps out = [1; 2; 4; 8].
Proof.
  intros Hdict Hfail Hok.
  destruct (fetch_page_retries_then_succeeds env self endpoint params m response 4)
    as (s0 & _ & Hrun); [lia | exact Hdict | | exact Hok |].
  - intros i Hi. destruct (Hfail i) as (s & Hs & Hin); [lia|].
    exists s. split; [exact Hs | apply retryable_elem_of; exact Hin].
  - eexists. split; [exact Hrun|]. split; reflexivity.
Qed.

Lemma fetch_page_five_retried_failures_witness :
  exists out,
    fetch_data_one_page (fails_five_times 503) CURRENCY_USD_QUOTE
      currency_params repository
    = (Ret (page_result 1 [quote 1500]), after_calls 6 repository, out)
    /\ effects out
       = (let call := EvCall (Method "currency_usd_indirect_quotation_get" 0)
                             currency_params in
          [call; call; EvSleep 1; call; EvSleep 2; call; EvSleep 4;
           call; EvSleep 8; call])
    /\ sleeps out = [1; 2; 4; 8].
Proof.
  apply (fetch_page_five_retried_failures (fails_five_times 503) repository
           CURRENCY_USD_QUOTE currency_params
           (Method "currency_usd_indirect_quotation_get" 0)
           (page_result 1 [quote 1500])).
  - reflexivity.
  - intros i Hi. exists 503. split.
    + do 5 (destruct i as [|i]; [reflexivity|]). lia.
    + apply retryable_elem_of. reflexivity.
  - reflexivity.
Defined.

(** C1, as stated, fails.  After five failures with status 429 the fetch has
    waited 1, 2, 4 and 8, not 1, 2, 4, 8 and 16; and status 501, of the 5xx
    class, is not retried at all: the fetch raises it. *)
Lemma five_failures_wait_four_times :
  result (fetch_data_one_page (fails_five_times 429) CURRENCY_USD_QUOTE
            currency_params repository)
  = Ret (page_result 1 [quote 1500])
  /\ sleeps (output (fetch_data_one_page (fails_five_times 429)
                       CURRENCY_USD_QUOTE currency_params repository))
     = [1; 2; 4; 8]
  /\ sleeps (output (fetch_data_one_page (fails_five_times 429)
                       CURRENCY_USD_QUOTE currency_params repository))
     <> [1; 2; 4; 8; 16]
  /\ result (fetch_data_one_page (fails_five_times 501) CURRENCY_USD_QUOTE
               currency_params repository)
     = Raise (ApiException 501).
Proof.
  split; [vm_compute; reflexivity|].
  split; [vm_compute; reflexivity|].
  split; [vm_compute; discriminate|].
  vm_compute; reflexivity.
Qed.

(** C2.  When the remote operation raises status 429 on every invocation,
    the loop of [_retry_with_backoff], entered after the first failed call,
    makes exactly ten calls, waiting 1, 2, 4, ..., 512 after them, and
    [fetch_data_one_page] raises the exception that reports the retries
    used up. *)
Theorem fetch_page_exhausts_retries env self endpoint params m :
  endpoint_dict self !! endpoint = Some m ->
  (forall n, transport env n m params = Raise (ApiException 429)) ->
  let out_loop := flat_map (failed_call m params) (seq 0 10) in
  _retry_with_backoff env m params (count_remote_call self)
  = (Raise (Exception "Max retries reached"), after_calls 11 self, out_loop)
  /\ length (calls out_loop) = 10%nat
  /\ sleeps out_loop = [1; 2; 4; 8; 16; 32; 64; 128; 256; 512]
  /\ fetch_data_one_page env endpoint params self
     = (Raise (Exception "Max retries reached"), after_calls 11 self,
        EvCall m params
        :: EvLog WARNING (RetryingWithBackoff (ApiException 429))
        :: out_loop).
Proof.
  intros Hdict Hfail out_loop.
  assert (Hloop : _retry_with_backoff env m params (count_remote_call self)
                  = (Raise (Exception "Max retries reached"),
                     after_calls 11 self, out_loop)).
  { rewrite after_calls_S. apply retry_with_backoff_exhausted.
    intros i _. exists 429. split; [apply Hfail | reflexivity]. }
  split; [exact Hloop|].
  split; [reflexivity|].
  split; [reflexivity|].
  unfold fetch_data_one_page. run_monad. rewrite Hdict.
  assert (Hretry : retryable 429 = true) by reflexivity.
  unfold invoke at 1. rewrite Hfail, (retryable_not_401 _ Hretry), Hretry.
  rewrite Hloop. reflexivity.
Qed.

Lemma fetch_page_exhausts_retries_witness :
  result (fetch_data_one_page always_429 ECONOMIC_DATA_LIST currency_params
            repository)
  = Raise (Exception "Max retries reached")
  /\ length (calls (output (fetch_data_one_page always_429 ECONOMIC_DATA_LIST
                              currency_params repository))) = 11%nat.
Proof.
  destruct (fetch_page_exhausts_retries always_429 repository
              ECONOMIC_DATA_LIST currency_params
              (Method "economic_data_indicator_list_get" 0))
    as (_ & _ & _ & Hrun).
  - reflexivity.
  - intros n. unfold always_429, scripted_env, scripted. cbn.
    destruct n as [|n]; reflexivity.
  - rewrite Hrun. split; reflexivity.
Defined.

(** ** Claims on the token refresh *)

Lemma token_requests_app out1 out2 :
  token_requests (out1 ++ out2) = (token_requests out1 + token_requests out2)%nat.
Proof. unfold token_requests. rewrite List.filter_app. apply length_app. Qed.

Lemma effects_failed_tokens key secret scopes statuses :
  forall attempts,
    length statuses = length attempts ->
    effects (flat_map (fun x => failed_token key secret scopes x.1 x.2)
                      (zip statuses attempts))
    = flat_map (fun j => [EvToken key secret scopes; EvSleep (2 ^ Z.of_nat j)])
               attempts.
Proof.
  induction statuses as [|s statuses IH]; intros [|j attempts] Hlen;
    try discriminate; [reflexivity|].
  cbn [zip zip_with flat_map]. rewrite effects_app, IH by (cbn in Hlen; lia).
  reflexivity.
Qed.

Lemma sleeps_failed_tokens key secret scopes statuses :
  forall attempts,
    length statuses = length attempts ->
    sleeps (flat_map (fun x => failed_token key secret scopes x.1 x.2)
                     (zip statuses attempts))
    = map (fun j => 2 ^ Z.of_nat j) attempts.
Proof.
  induction statuses as [|s statuses IH]; intros [|j attempts] Hlen;
    try discriminate; [reflexivity|].
  cbn [zip zip_with flat_map map]. rewrite sleeps_app, IH by (cbn in Hlen; lia).
  reflexivity.
Qed.

Lemma token_requests_failed_tokens key secret scopes statuses :
  forall attempts,
    length statuses = length attempts ->
    token_requests (flat_map (fun x => failed_token key secret scopes x.1 x.2)
                             (zip statuses attempts))
    = length attempts.
Proof.
  induction statuses as [|s statuses IH]; intros [|j attempts] Hlen;
    try discriminate; [reflexivity|].
  cbn [zip zip_with flat_map]. rewrite token_requests_app, IH by (cbn in Hlen; lia).
  reflexivity.
Qed.

(** [_refresh_access_token] is its announcement in the log followed by
    the loop over five attempts. *)
Lemma refresh_access_token_run env key secret scopes self r self' out :
  refresh_attempts env 2 (seq 0 5) key secret scopes self = (r, self', out) ->
  _refresh_access_token env key secret scopes self
  = (r, self', EvLog INFO TokenRefreshCalled :: out).
Proof.
  intros Hrun.
  unfold _refresh_access_token, mbind, M_bind, bind, log, emit.
  cbv zeta. rewrite Hrun. destruct r; reflexivity.
Qed.

(** C6.  When the provider raises a retried status on five requests in a
    row, [_refresh_access_token] makes exactly those five requests, waits
    1, 2, 4, 8 and 16 after them in turn, and raises the exception that
    reports the retries used up.  When a request meets any other status, the
    method raises that status at once: no wait follows it and no further
    request is made. *)
Theorem refresh_token_backoff env key secret scopes self :
  ((forall i, (i < 5)%nat ->
      exists s, token_provider env (token_calls self + i) key secret scopes
                = Raise (ApiException s) /\ s ∈ retry_statuses) ->
   exists out,
     _refresh_access_token env key secret scopes self
     = (Raise (Exception
          "Max retries reached while trying to refresh the access token."),
        after_token_calls 5 self, out)
     /\ effects out
        = [EvToken key secret scopes; EvSleep 1;
           EvToken key secret scopes; EvSleep 2;
           EvToken key secret scopes; EvSleep 4;
           EvToken key secret scopes; EvSleep 8;
           EvToken key secret scopes; EvSleep 16]
     /\ token_requests out = 5%nat
     /\ sleeps out = [1; 2; 4; 8; 16])
  /\
  (forall k s,
     (k < 5)%nat ->
     (forall i, (i < k)%nat ->
        exists s', token_provider env (token_calls self + i) key secret scopes
                   = Raise (ApiException s') /\ s' ∈ retry_statuses) ->
     token_provider env (token_calls self + k) key secret scopes
     = Raise (ApiException s) ->
     s ∉ retry_statuses ->
     exists out,
       _refresh_access_token env key secret scopes self
       = (Raise (ApiException s), after_token_calls (S k) self, out)
       /\ token_requests out = S k
       /\ sleeps out = map (fun j => 2 ^ Z.of_nat j) (seq 0 k)
       /\ last out = Some (EvLog ERROR (TokenRefreshFailed (ApiException s)))).
Proof.
  split.
  - intros Hfail.
    destruct (refresh_attempts_prefix env key secret scopes 5 0 [] self
                (Raise (Exception
                   "Max retries reached while trying to refresh the access token."))
                (after_token_calls 5 self) [])
      as (statuses & Hlen & Hrun); [|reflexivity|].
    { intros i Hi. destruct (Hfail i Hi) as (s & Hs & Hin).
      exists s. split; [exact Hs | apply retryable_elem_of; exact Hin]. }
    rewrite !app_nil_r in Hrun.
    eexists. split.
    { apply refresh_access_token_run. exact Hrun. }
    change (EvLog INFO TokenRefreshCalled :: ?l)
      with ([EvLog INFO TokenRefreshCalled] ++ l).
    rewrite effects_app, token_requests_app, sleeps_app.
    rewrite effects_failed_tokens, token_requests_failed_tokens,
      sleeps_failed_tokens by exact Hlen.
    repeat split; reflexivity.
  - intros k s Hk Hfail Hs Hnot.
    assert (Hretry : retryable s = false).
    { apply not_true_is_false. intros H. apply Hnot, retryable_elem_of, H. }
    destruct (refresh_attempts_prefix env key secret scopes k 0
                (k :: seq (S k) (4 - k)) self
                (Raise (ApiException s)) (after_token_calls (S k) self)
                [EvToken key secret scopes;
                 EvLog ERROR (TokenRefreshFailed (ApiException s))])
      as (statuses & Hlen & Hrun).
    { intros i Hi. destruct (Hfail i Hi) as (s' & Hs' & Hin).
      exists s'. split; [exact Hs' | apply retryable_elem_of; exact Hin]. }
    { cbn [refresh_attempts]. unfold try_except at 1. run_monad.
      rewrite token_calls_after_token_calls, Hs, Hretry. reflexivity. }
    eexists. split.
    { apply refresh_access_token_run.
      replace 5%nat with (k + S (4 - k))%nat by lia.
      rewrite seq_app. cbn [seq Nat.add]. exact Hrun. }
    assert (Hlen' : length statuses = length (seq 0 k))
      by (rewrite length_seq; exact Hlen).
    change (EvLog INFO TokenRefreshCalled :: ?l)
      with ([EvLog INFO TokenRefreshCalled] ++ l).
    rewrite !token_requests_app, !sleeps_app.
    rewrite token_requests_failed_tokens, sleeps_failed_tokens by exact Hlen'.
    rewrite length_seq. split; [cbn; lia|]. split.
    + cbn. rewrite app_nil_r. reflexivity.
    + rewrite app_assoc.
      change [EvToken key secret scopes;
              EvLog ERROR (TokenRefreshFailed (ApiException s))]
        with ([EvToken key secret scopes]
              ++ [EvLog ERROR (TokenRefreshFailed (ApiException s))]).
      rewrite app_assoc. apply last_snoc.
Qed.

Lemma refresh_token_backoff_witness :
  (exists out,
     _refresh_access_token provider_down "key" "secret" [] repository
     = (Raise (Exception
          "Max retries reached while trying to refresh the access token."),
        after_token_calls 5 repository, out)
     /\ effects out
        = [EvToken "key" "secret" []; EvSleep 1;
           EvToken "key" "secret" []; EvSleep 2;
           EvToken "key" "secret" []; EvSleep 4;
           EvToken "key" "secret" []; EvSleep 8;
           EvToken "key" "secret" []; EvSleep 16]
     /\ token_requests out = 5%nat
     /\ sleeps out = [1; 2; 4; 8; 16])
  /\
  (exists out,
     _refresh_access_token provider_rejects "key" "secret" [] repository
     = (Raise (ApiException 403), after_token_calls 1 repository, out)
     /\ token_requests out = 1%nat
     /\ sleeps out = []
     /\ last out = Some (EvLog ERROR (TokenRefreshFailed (ApiException 403)))).
Proof.
  split.
  - apply (proj1 (refresh_token_backoff provider_down "key" "secret" []
                    repository)).
    intros i _. exists 503. split.
    + destruct i; reflexivity.
    + apply retryable_elem_of. reflexivity.
  - apply (proj2 (refresh_token_backoff provider_rejects "key" "secret" []
                    repository) 0%nat 403).
    + lia.
    + intros i Hi. lia.
    + reflexivity.
    + intros Hin. apply retryable_elem_of in Hin. vm_compute in Hin.
      discriminate Hin.
Defined.

(** ** Claims on re-authentication and on unregistered endpoints *)

(** The loop of the token refresh touches neither the transport nor the
    client, and does not announce a refresh of its own. *)
Lemma refresh_attempts_frame env attempts key secret scopes :
  forall self,
    calls (output (refresh_attempts env 2 attempts key secret scopes self)) = []
    /\ refresh_invocations
         (output (refresh_attempts env 2 attempts key secret scopes self)) = 0%nat
    /\ clients_built
         (output (refresh_attempts env 2 attempts key secret scopes self)) = []
    /\ endpoint_dict (final (refresh_attempts env 2 attempts key secret scopes self))
       = endpoint_dict self
    /\ remote_calls (final (refresh_attempts env 2 attempts key secret scopes self))
       = remote_calls self
    /\ api_client (final (refresh_attempts env 2 attempts key secret scopes self))
       = api_client self.
Proof.
  induction attempts as [|attempt rest IH]; intros self.
  - cbn. repeat split; reflexivity.
  - cbn [refresh_attempts]. unfold try_except at 1. run_monad.
    destruct (token_provider env (token_calls self) key secret scopes)
      as [token|e]; [cbn; repeat split; reflexivity|].
    destruct e; try (cbn; repeat split; reflexivity).
    destruct (retryable status); [|cbn; repeat split; reflexivity].
    specialize (IH (count_token_call self)).
    destruct (refresh_attempts env 2 rest key secret scopes
                (count_token_call self)) as [[r self'] out].
    exact IH.
Qed.

Lemma refresh_access_token_frame env key secret scopes self :
  calls (output (_refresh_access_token env key secret scopes self)) = []
  /\ refresh_invocations
       (output (_refresh_access_token env key secret scopes self)) = 1%nat
  /\ clients_built
       (output (_refresh_access_token env key secret scopes self)) = []
  /\ endpoint_dict (final (_refresh_access_token env key secret scopes self))
     = endpoint_dict self
  /\ remote_calls (final (_refresh_access_token env key secret scopes self))
     = remote_calls self
  /\ api_client (final (_refresh_access_token env key secret scopes self))
     = api_client self.
Proof.
  destruct (refresh_attempts env 2 (seq 0 5) key secret scopes self)
    as [[r self'] out] eqn:Hrun.
  rewrite (refresh_access_token_run _ _ _ _ _ _ _ _ Hrun).
  pose proof (refresh_attempts_frame env (seq 0 5) key secret scopes self) as H.
  rewrite Hrun in H. destruct H as (Hc & Hi & Hb & Hd & Hn & Ha).
  unfold output, final in *. cbn [fst snd] in *.
  repeat split; try assumption.
  unfold refresh_invocations in *. cbn. rewrite Hi. reflexivity.
Qed.

(** C5, as amended.  When the remote operation first raises status 401,
    [fetch_data_one_page] invokes [_refresh_access_token] exactly once.  If
    that refresh returns, a new client is constructed and the operation is
    invoked exactly once more: whatever that second invocation gives, a
    value or an exception of any status, is what the fetch gives, with no
    further refresh.  If the refresh raises, its exception is what the fetch
    raises: no client is constructed and the operation is not invoked
    again. *)
Theorem fetch_page_reauthenticates env self endpoint params m
    r_refresh self_r out_r :
  endpoint_dict self !! endpoint = Some m ->
  transport env (remote_calls self) m params = Raise (ApiException 401) ->
  _refresh_access_token env (key self) (secret self) (scopes self)
    (count_remote_call self) = (r_refresh, self_r, out_r) ->
  let run := fetch_data_one_page env endpoint params self in
  refresh_invocations (output run) = 1%nat
  /\ match r_refresh with
     | Ret _ =>
         result run = transport env (S (remote_calls self)) m params
         /\ output run
            = [EvCall m params; EvLog INFO TokenExpired] ++ out_r
              ++ [EvApiClient (S (api_client self)); EvCall m params]
         /\ calls (output run) = [(m, params); (m, params)]
         /\ clients_built (output run) = [S (api_client self)]
         /\ api_client (final run) = S (api_client self)
         /\ remote_calls (final run) = (remote_calls self + 2)%nat
     | Raise e =>
         result run = Raise e
         /\ output run = [EvCall m params; EvLog INFO TokenExpired] ++ out_r
         /\ calls (output run) = [(m, params)]
         /\ clients_built (output run) = []
         /\ remote_calls (final run) = (remote_calls self + 1)%nat
     end.
Proof.
  intros Hdict H401 Hrefresh run.
  pose proof (refresh_access_token_frame env (key self) (secret self)
                (scopes self) (count_remote_call self)) as Hframe.
  rewrite Hrefresh in Hframe. unfold output, final in Hframe.
  cbn [fst snd remote_calls count_remote_call endpoint_dict api_client]
    in Hframe.
  destruct Hframe as (Hcalls & Hinv & Hbuilt & Hd & Hn & Ha).
  assert (Hrun : run =
    match r_refresh with
    | Ret _ =>
        (transport env (S (remote_calls self)) m params,
         count_remote_call
           (set_api_instances (S (api_client self))
              (set_api_client (S (api_client self)) self_r)),
         [EvCall m params; EvLog INFO TokenExpired] ++ out_r
         ++ [EvApiClient (S (api_client self)); EvCall m params])
    | Raise e =>
        (Raise e, self_r, [EvCall m params; EvLog INFO TokenExpired] ++ out_r)
    end).
  { subst run. unfold fetch_data_one_page. run_monad. rewrite Hdict.
    unfold invoke at 1. rewrite H401.
    rewrite bool_decide_eq_true_2 by reflexivity. cbn.
    rewrite Hrefresh. destruct r_refresh as [[]|e]; [|reflexivity].
    unfold new_api_client, _set_api_instances. run_monad.
    rewrite Hd, Hdict. unfold invoke. cbn. rewrite Hn, Ha.
    destruct (transport env (S (remote_calls self)) m params); reflexivity. }
  rewrite Hrun. clear Hrun run.
  assert (Hone : forall pre post,
            refresh_invocations pre = 0%nat ->
            refresh_invocations post = 0%nat ->
            refresh_invocations (pre ++ out_r ++ post) = 1%nat).
  { intros pre post Hpre Hpost. unfold refresh_invocations in *.
    rewrite !List.filter_app, !length_app, Hpre, Hpost, Hinv. reflexivity. }
  destruct r_refresh as [[]|e]; unfold result, output, final; cbn [fst snd].
  - split; [apply Hone; reflexivity|].
    split; [reflexivity|]. split; [reflexivity|].
    rewrite !calls_app, Hcalls.
    unfold clients_built in *. rewrite !omap_app, Hbuilt.
    cbn. rewrite Hn. repeat split; try reflexivity. lia.
  - split.
    { rewrite <- (app_nil_r out_r). apply Hone; reflexivity. }
    split; [reflexivity|]. split; [reflexivity|].
    rewrite !calls_app, Hcalls.
    unfold clients_built in *. rewrite !omap_app, Hbuilt.
    cbn. rewrite Hn. repeat split; try reflexivity. lia.
Qed.

Lemma fetch_page_reauthenticates_witness :
  result (fetch_data_one_page token_expired CURRENCY_USD_QUOTE currency_params
            repository)
  = Ret (page_result 1 [quote 1500])
  /\ refresh_invocations
       (output (fetch_data_one_page token_expired CURRENCY_USD_QUOTE
                  currency_params repository)) = 1%nat
  /\ length (calls (output (fetch_data_one_page token_expired
                              CURRENCY_USD_QUOTE currency_params repository)))
     = 2%nat
  /\ clients_built
       (output (fetch_data_one_page token_expired CURRENCY_USD_QUOTE
                  currency_params repository)) = [1%nat].
Proof.
  pose proof (fetch_page_reauthenticates token_expired repository
                CURRENCY_USD_QUOTE currency_params
                (Method "currency_usd_indirect_quotation_get" 0)
                (Ret tt)
                (set_access_token "token-1"
                   (count_token_call (count_remote_call repository)))
                [EvLog INFO TokenRefreshCalled;
                 EvToken (key repository) (secret repository) (scopes repository);
                 EvLog INFO TokenRefreshed]
                eq_refl eq_refl eq_refl) as H.
  cbv zeta in H. destruct H as (Hone & Hres & _ & Hcalls & Hbuilt & _).
  rewrite Hres, Hone, Hcalls, Hbuilt. repeat split; reflexivity.
Defined.

(** C5, as stated, fails when the refresh itself fails.  The first call meets
    status 401 and the provider rejects the credentials with status 403: the
    fetch raises that 403, having invoked the operation once, not twice, and
    having constructed no client. *)
Lemma refresh_failure_is_not_retried :
  result (fetch_data_one_page provider_rejects CURRENCY_USD_QUOTE
            currency_params repository)
  = Raise (ApiException 403)
  /\ refresh_invocations
       (output (fetch_data_one_page provider_rejects CURRENCY_USD_QUOTE
                  currency_params repository)) = 1%nat
  /\ length (calls (output (fetch_data_one_page provider_rejects
                              CURRENCY_USD_QUOTE currency_params repository)))
     = 1%nat
  /\ clients_built
       (output (fetch_data_one_page provider_rejects CURRENCY_USD_QUOTE
                  currency_params repository)) = [].
Proof. repeat split; vm_compute; reflexivity. Qed.

(** C8.  For an endpoint that [endpoint_dict] does not register,
    [fetch_data_one_page] writes one error record naming the endpoint to the
    log and returns [None]: nothing is raised, nothing is invoked, and the
    instance is left as it was. *)
Theorem unregistered_endpoint_returns_none env self endpoint params :
  endpoint_dict self !! endpoint = None ->
  fetch_data_one_page env endpoint params self
  = (Ret PNone, self, [EvLog ERROR (InvalidEndpoint endpoint)]).
Proof.
  intros Hdict. unfold fetch_data_one_page. run_monad.
  rewrite Hdict. reflexivity.
Qed.

Lemma unregistered_endpoint_returns_none_witness :
  fetch_data_one_page (serves 2500) ECONOMIC_DATA_VALUES currency_params
    repository_without_values
  = (Ret PNone, repository_without_values,
     [EvLog ERROR (InvalidEndpoint ECONOMIC_DATA_VALUES)]).
Proof.
  apply (unregistered_endpoint_returns_none (serves 2500)
           repository_without_values ECONOMIC_DATA_VALUES currency_params).
  reflexivity.
Defined.

(** ** Claims on pagination *)

(** The quotient [(t + ps - 1) / ps] is the ceiling of [t / ps]: the least
    number of pages of [ps] items that hold [t] items. *)
Lemma ceiling_pages t ps :
  0 < ps ->
  ((t + ps - 1) / ps - 1) * ps < t <= (t + ps - 1) / ps * ps.
Proof.
  intros Hps.
  pose proof (Z.div_mod (t + ps - 1) ps ltac:(lia)) as Hdiv.
  pose proof (Z.mod_pos_bound (t + ps - 1) ps Hps) as Hmod.
  nia.
Qed.

(** [get_total_pages] once the probe has returned. *)
Lemma get_total_pages_run env endpoint_type params self res self' out :
  fetch_data_one_page env endpoint_type params self = (Ret res, self', out) ->
  get_total_pages env endpoint_type params self
  = match getattr res "total_items" with
    | Some total_items =>
        let page_size :=
          default (PInt CURRENT_MAX_DATA_BRIDGES_PAGE_SIZE)
                  (params !! "page_size") in
        match py_add total_items page_size with
        | Raise e => (Raise e, self', out)
        | Ret sum =>
            match py_sub sum (PInt 1) with
            | Raise e => (Raise e, self', out)
            | Ret numerator =>
                match py_floordiv numerator page_size with
                | Raise e => (Raise e, self', out)
                | Ret _total_pages =>
                    (Ret _total_pages, self',
                     out ++ [EvLog WARNING
                               (TotalPages params page_size _total_pages
                                  total_items)])
                end
            end
        end
    | None => (Ret (PInt 1), self', out)
    end.
Proof.
  intros Hfetch. unfold get_total_pages. run_monad. rewrite Hfetch.
  unfold hasattr, attribute.
  destruct (getattr res "total_items") as [total_items|]; cbn;
    [|rewrite app_nil_r; reflexivity].
  destruct (py_add total_items _) as [sum|e]; cbn;
    [|rewrite app_nil_r; reflexivity].
  destruct (py_sub sum _) as [numerator|e]; cbn;
    [|rewrite app_nil_r; reflexivity].
  destruct (py_floordiv numerator _) as [pages|e]; cbn;
    [reflexivity | rewrite app_nil_r; reflexivity].
Qed.

(** The page count for an integer total and a positive integer page size. *)
Lemma get_total_pages_int env endpoint_type params self res self' out
    total_items page_size :
  fetch_data_one_page env endpoint_type params self = (Ret res, self', out) ->
  getattr res "total_items" = Some (PInt total_items) ->
  default (PInt CURRENT_MAX_DATA_BRIDGES_PAGE_SIZE) (params !! "page_size")
  = PInt page_size ->
  0 < page_size ->
  get_total_pages env endpoint_type params self
  = (Ret (PInt ((total_items + page_size - 1) / page_size)), self',
     out ++ [EvLog WARNING
               (TotalPages params (PInt page_size)
                  (PInt ((total_items + page_size - 1) / page_size))
                  (PInt total_items))]).
Proof.
  intros Hfetch Hattr Hsize Hpos.
  rewrite (get_total_pages_run _ _ _ _ _ _ _ Hfetch), Hattr.
  cbv zeta. rewrite Hsize. cbn [py_add py_sub py_floordiv].
  rewrite bool_decide_eq_false_2 by lia. reflexivity.
Qed.

(** C7.  When the probe returns a response with an integer [total_items],
    and the page size, the [page_size] of [params] if there is one and 1000
    otherwise, is a positive integer, [get_total_pages] returns the ceiling
    of their quotient: the [n] with [(n - 1) * page_size < total_items
    <= n * page_size].  This is 3 for 2500 items and 1 for 1000 items in
    pages of 1000.  When the response has no [total_items], it returns 1. *)
Theorem get_total_pages_ceiling env endpoint_type params self res self' out :
  fetch_data_one_page env endpoint_type params self = (Ret res, self', out) ->
  (forall total_items page_size,
     getattr res "total_items" = Some (PInt total_items) ->
     params !! "page_size" = Some (PInt page_size)
     \/ (params !! "page_size" = None /\ page_size = 1000) ->
     0 < page_size ->
     exists n,
       result (get_total_pages env endpoint_type params self) = Ret (PInt n)
       /\ (n - 1) * page_size < total_items <= n * page_size
       /\ (total_items = 2500 -> page_size = 1000 -> n = 3)
       /\ (total_items = 1000 -> page_size = 1000 -> n = 1))
  /\ (getattr res "total_items" = None ->
      result (get_total_pages env endpoint_type params self) = Ret (PInt 1)).
Proof.
  intros Hfetch. split.
  - intros total_items page_size Hattr Hsize Hpos.
    exists ((total_items + page_size - 1) / page_size).
    split; [|split; [apply ceiling_pages; exact Hpos|]].
    + rewrite (get_total_pages_int _ _ _ _ _ _ _ total_items page_size
                 Hfetch Hattr); [reflexivity| |exact Hpos].
      destruct Hsize as [->|[-> ->]]; reflexivity.
    + split; intros -> ->; reflexivity.
  - intros Hattr.
    rewrite (get_total_pages_run _ _ _ _ _ _ _ Hfetch), Hattr. reflexivity.
Qed.

Lemma get_total_pages_ceiling_witness :
  result (get_total_pages (serves 2500) CURRENCY_USD_QUOTE currency_params
            repository) = Ret (PInt 3)
  /\ result (get_total_pages (serves 1000) CURRENCY_USD_QUOTE
               (<["page_size" := PInt 1000]> currency_params) repository)
     = Ret (PInt 1)
  /\ result (get_total_pages (serves 2500) CURRENCY_USD_QUOTE
               (<["page_size" := PInt 100]> currency_params) repository)
     = Ret (PInt 25)
  /\ result (get_total_pages serves_single_page CURRENCY_USD_QUOTE
               currency_params repository) = Ret (PInt 1).
Proof.
  split; [|split; [|split]].
  - destruct (proj1 (get_total_pages_ceiling (serves 2500) CURRENCY_USD_QUOTE
                       currency_params repository _ _ _ eq_refl)
                2500 1000 eq_refl ltac:(right; split; reflexivity)
                ltac:(lia))
      as (n & Hrun & _ & Hn & _).
    rewrite Hrun, (Hn eq_refl eq_refl). reflexivity.
  - destruct (proj1 (get_total_pages_ceiling (serves 1000) CURRENCY_USD_QUOTE
                       (<["page_size" := PInt 1000]> currency_params)
                       repository _ _ _ eq_refl)
                1000 1000 eq_refl ltac:(left; reflexivity) ltac:(lia))
      as (n & Hrun & _ & _ & Hn).
    rewrite Hrun, (Hn eq_refl eq_refl). reflexivity.
  - destruct (proj1 (get_total_pages_ceiling (serves 2500) CURRENCY_USD_QUOTE
                       (<["page_size" := PInt 100]> currency_params)
                       repository _ _ _ eq_refl)
                2500 100 eq_refl ltac:(left; reflexivity) ltac:(lia))
      as (n & Hrun & Hn & _).
    rewrite Hrun. do 2 f_equal. lia.
  - apply (proj2 (get_total_pages_ceiling serves_single_page
                    CURRENCY_USD_QUOTE currency_params repository _ _ _
                    eq_refl)).
    reflexivity.
Defined.

(** The test that guards the default starting page never finds the string:
    the list it searches holds the dictionary, not its keys. *)
Lemma page_never_in_list_of_params (params : gmap string pyval) :
  str_in_list "page" [PDict params] = false.
Proof. reflexivity. Qed.

(** [fetch_all_data_bridges_data] once the page count [n] is known: the
    pages submitted are 1 to [n], whatever [params] holds under ["page"]. *)
Lemma fetch_all_run env endpoint_type params self n self' out :
  get_total_pages env endpoint_type params self = (Ret (PInt n), self', out) ->
  fetch_all_data_bridges_data env endpoint_type params self
  = match
      (futures ← submit_pages endpoint_type (<["page" := PInt 1]> params)
                   (map (fun i => 1 + Z.of_nat i) (seq 0 (Z.to_nat n)));
       completed ← run_pool env endpoint_type futures;
       collect pd_DataFrame_empty completed) self'
    with
    | (r, self'', out') => (r, self'', out ++ out')
    end.
Proof.
  intros Hpages. unfold fetch_all_data_bridges_data.
  unfold mbind at 1, M_bind at 1, bind at 1. rewrite Hpages.
  rewrite page_never_in_list_of_params. cbn [negb].
  unfold subscript. rewrite lookup_insert_eq.
  unfold mbind at 1, M_bind at 1, bind at 1, lift at 1.
  unfold mbind at 1, M_bind at 1, bind at 1, lift at 1.
  cbn [py_add].
  unfold mbind at 1, M_bind at 1, bind at 1, lift at 1.
  cbn [py_range].
  replace (n + 1 - 1) with n by lia.
  cbn [app].
  destruct ((futures ← submit_pages endpoint_type (<["page" := PInt 1]> params)
                   (map (fun i => 1 + Z.of_nat i) (seq 0 (Z.to_nat n)));
             completed ← run_pool env endpoint_type futures;
             collect pd_DataFrame_empty completed) self')
    as [[r self''] out']; reflexivity.
Qed.

(** C4, as amended.  When the probe reports a total of zero items and the
    page size, the [page_size] of [params] or else 1000, is a positive
    integer, [get_total_pages] returns 0 without raising, and
    [fetch_all_data_bridges_data] returns the empty table: it submits no
    task and invokes nothing after the probe. *)
Theorem fetch_all_of_nothing env endpoint_type params self res self' out
    page_size :
  fetch_data_one_page env endpoint_type params self = (Ret res, self', out) ->
  getattr res "total_items" = Some (PInt 0) ->
  params !! "page_size" = Some (PInt page_size)
  \/ (params !! "page_size" = None /\ page_size = 1000) ->
  0 < page_size ->
  let total_pages_logged :=
    EvLog WARNING (TotalPages params (PInt page_size) (PInt 0) (PInt 0)) in
  get_total_pages env endpoint_type params self
  = (Ret (PInt 0), self', out ++ [total_pages_logged])
  /\ fetch_all_data_bridges_data env endpoint_type params self
     = (Ret pd_DataFrame_empty, self', out ++ [total_pages_logged]).
Proof.
  intros Hfetch Hattr Hsize Hpos logged.
  assert (Hpages : get_total_pages env endpoint_type params self
                   = (Ret (PInt 0), self', out ++ [logged])).
  { rewrite (get_total_pages_int _ _ _ _ _ _ _ 0 page_size Hfetch Hattr);
      [| destruct Hsize as [->|[-> ->]]; reflexivity | exact Hpos].
    subst logged. rewrite (Z.div_small (0 + page_size - 1) page_size) by lia.
    reflexivity. }
  split; [exact Hpages|].
  rewrite (fetch_all_run _ _ _ _ _ _ _ Hpages).
  change (Z.to_nat 0) with 0%nat. run_monad.
  rewrite app_nil_r. reflexivity.
Qed.

Lemma fetch_all_of_nothing_witness :
  get_total_pages serves_nothing CURRENCY_USD_QUOTE currency_params repository
  = (Ret (PInt 0), after_calls 1 repository,
     [EvCall (Method "currency_usd_indirect_quotation_get" 0) currency_params;
      EvLog WARNING
        (TotalPages currency_params (PInt 1000) (PInt 0) (PInt 0))])
  /\ fetch_all_data_bridges_data serves_nothing CURRENCY_USD_QUOTE
       currency_params repository
     = (Ret pd_DataFrame_empty, after_calls 1 repository,
        [EvCall (Method "currency_usd_indirect_quotation_get" 0) currency_params;
         EvLog WARNING
           (TotalPages currency_params (PInt 1000) (PInt 0) (PInt 0))]).
Proof.
  apply (fetch_all_of_nothing serves_nothing CURRENCY_USD_QUOTE currency_params
           repository (page_result 0 []) (after_calls 1 repository)
           [EvCall (Method "currency_usd_indirect_quotation_get" 0)
                   currency_params]
           1000).
  - reflexivity.
  - reflexivity.
  - right. split; reflexivity.
  - lia.
Defined.

(** C4, as stated, fails: for a total of zero items the page count that
    [get_total_pages] computes is 0, which is not at least 1. *)
Lemma zero_items_give_zero_pages :
  result (get_total_pages serves_nothing CURRENCY_USD_QUOTE currency_params
            repository) = Ret (PInt 0)
  /\ ~ (exists n,
          result (get_total_pages serves_nothing CURRENCY_USD_QUOTE
                    currency_params repository) = Ret (PInt n)
          /\ 1 <= n).
Proof.
  assert (H : result (get_total_pages serves_nothing CURRENCY_USD_QUOTE
                        currency_params repository) = Ret (PInt 0))
    by (vm_compute; reflexivity).
  split; [exact H|].
  intros (n & Hn & Hle). rewrite H in Hn.
  assert (n = 0) by congruence. lia.
Qed.

(** ** Every page from 1 is fetched *)

Lemma submitted_pages_app out1 out2 :
  submitted_pages (out1 ++ out2) = submitted_pages out1 ++ submitted_pages out2.
Proof. unfold submitted_pages. apply omap_app. Qed.

Lemma retry_attempts_submits_nothing env attempts m p :
  forall self,
    submitted_pages (output (retry_attempts env 2 attempts m p self)) = [].
Proof.
  induction attempts as [|attempt rest IH]; intros self; [reflexivity|].
  cbn [retry_attempts]. unfold try_except at 1, invoke at 1.
  destruct (transport env (remote_calls self) m p) as [v|e]; [reflexivity|].
  destruct e; try reflexivity.
  destruct (retryable status); [|reflexivity].
  run_monad. specialize (IH (count_remote_call self)).
  destruct (retry_attempts env 2 rest m p (count_remote_call self))
    as [[r self'] out].
  exact IH.
Qed.

Lemma refresh_attempts_submits_nothing env attempts key secret scopes :
  forall self,
    submitted_pages
      (output (refresh_attempts env 2 attempts key secret scopes self)) = [].
Proof.
  induction attempts as [|attempt rest IH]; intros self; [reflexivity|].
  cbn [refresh_attempts]. unfold try_except at 1. run_monad.
  destruct (token_provider env (token_calls self) key secret scopes)
    as [token|e]; [reflexivity|].
  destruct e; try reflexivity.
  destruct (retryable status); [|reflexivity].
  specialize (IH (count_token_call self)).
  destruct (refresh_attempts env 2 rest key secret scopes
              (count_token_call self)) as [[r self'] out].
  exact IH.
Qed.

Lemma fetch_data_one_page_submits_nothing env endpoint params self :
  submitted_pages (output (fetch_data_one_page env endpoint params self)) = [].
Proof.
  unfold fetch_data_one_page. run_monad.
  destruct (endpoint_dict self !! endpoint) as [m|]; [|reflexivity].
  unfold invoke at 1.
  destruct (transport env (remote_calls self) m params) as [v|e];
    [reflexivity|].
  destruct e; try reflexivity.
  destruct (bool_decide (status = 401)).
  - destruct (refresh_attempts env 2 (seq 0 5) (key self) (secret self)
                (scopes self) (count_remote_call self))
      as [[r self'] out] eqn:Hrun.
    pose proof (refresh_attempts_submits_nothing env (seq 0 5) (key self)
                  (secret self) (scopes self) (count_remote_call self)) as Hq.
    rewrite Hrun in Hq. unfold output in Hq. cbn [snd] in Hq.
    cbn. rewrite (refresh_access_token_run _ _ _ _ _ _ _ _ Hrun).
    destruct r as [[]|e]; [|exact Hq].
    unfold new_api_client, _set_api_instances. run_monad.
    destruct (endpoint_dict self' !! endpoint) as [m'|]; cbn.
    + unfold invoke.
      destruct (transport env (remote_calls self') m' params);
        unfold output; cbn [snd]; rewrite submitted_pages_app, Hq; reflexivity.
    + unfold output; cbn [snd]; rewrite submitted_pages_app, Hq; reflexivity.
  - destruct (retryable status); [|reflexivity].
    pose proof (retry_attempts_submits_nothing env (seq 0 10) m params
                  (count_remote_call self)) as Hq.
    unfold _retry_with_backoff. cbv zeta.
    destruct (retry_attempts env 2 (seq 0 10) m params (count_remote_call self))
      as [[r self'] out].
    exact Hq.
Qed.

Lemma fetch_one_data_bridges_page_submits_nothing env endpoint_type params self :
  submitted_pages
    (output (fetch_one_data_bridges_page env endpoint_type params self)) = [].
Proof.
  pose proof (fetch_data_one_page_submits_nothing env endpoint_type params self)
    as Hq.
  unfold fetch_one_data_bridges_page. run_monad.
  destruct (fetch_data_one_page env endpoint_type params self)
    as [[[res|e] self'] out]; unfold output in *; cbn [snd] in *;
    [|exact Hq].
  destruct (hasattr res "items"); cbn.
  - destruct (attribute res "items") as [items|e]; cbn;
      [|rewrite submitted_pages_app, Hq; reflexivity].
    destruct (normalize_items items) as [normalized|e]; cbn;
      [|rewrite submitted_pages_app, Hq; reflexivity].
    destruct (pd_DataFrame normalized); cbn;
      rewrite submitted_pages_app, Hq; reflexivity.
  - rewrite submitted_pages_app, Hq. reflexivity.
Qed.

Lemma run_pool_submits_nothing env endpoint_type futures :
  forall self,
    submitted_pages (output (run_pool env endpoint_type futures self)) = []
    /\ exists completed,
         result (run_pool env endpoint_type futures self) = Ret completed.
Proof.
  induction futures as [|page_params rest IH]; intros self.
  - split; [reflexivity | exists []; reflexivity].
  - pose proof (fetch_one_data_bridges_page_submits_nothing env endpoint_type
                  page_params self) as Hq.
    cbn [run_pool]. unfold capture. run_monad.
    destruct (fetch_one_data_bridges_page env endpoint_type page_params self)
      as [[outcome self'] out]. unfold output in Hq. cbn [snd] in Hq.
    destruct (IH self') as (Hrest & completed & Hcompleted).
    destruct (run_pool env endpoint_type rest self') as [[r self''] out'].
    unfold output, result in *. cbn [fst snd] in *. subst r. cbn.
    rewrite submitted_pages_app, submitted_pages_app, Hq, Hrest.
    split; [reflexivity | eexists; reflexivity].
Qed.

Lemma collect_is_silent completed :
  forall all_data_df self,
    output (collect all_data_df completed self) = []
    /\ final (collect all_data_df completed self) = self.
Proof.
  induction completed as [|future rest IH]; intros all_data_df self;
    [split; reflexivity|].
  cbn [collect]. run_monad. destruct future as [res_df|e]; [|split; reflexivity].
  destruct (IH (pd_concat all_data_df res_df) self) as (Hout & Hfinal).
  destruct (collect (pd_concat all_data_df res_df) rest self)
    as [[r self'] out].
  unfold output, final in *. cbn [fst snd] in *. subst. split; reflexivity.
Qed.

Lemma submit_pages_run endpoint_type params pages self :
  submit_pages endpoint_type params pages self
  = (Ret (map (fun page => <["page" := PInt page]> params) pages), self,
     map (fun page => EvSubmit endpoint_type (<["page" := PInt page]> params))
         pages).
Proof.
  induction pages as [|page rest IH]; [reflexivity|].
  cbn [submit_pages map]. run_monad. rewrite IH. cbn.
  rewrite app_nil_r. reflexivity.
Qed.

Lemma get_total_pages_submits_nothing env endpoint_type params self :
  submitted_pages (output (get_total_pages env endpoint_type params self)) = [].
Proof.
  pose proof (fetch_data_one_page_submits_nothing env endpoint_type params self)
    as Hq.
  destruct (fetch_data_one_page env endpoint_type params self)
    as [[[res|e] self'] out] eqn:Hfetch; unfold output in Hq; cbn [snd] in Hq.
  - rewrite (get_total_pages_run _ _ _ _ _ _ _ Hfetch).
    destruct (getattr res "total_items") as [total_items|]; [|exact Hq].
    cbv zeta.
    destruct (py_add total_items _) as [sum|e]; [|exact Hq].
    destruct (py_sub sum _) as [numerator|e]; [|exact Hq].
    destruct (py_floordiv numerator _) as [pages|e]; [|exact Hq].
    unfold output. cbn [snd]. rewrite submitted_pages_app, Hq. reflexivity.
  - unfold get_total_pages. run_monad. rewrite Hfetch. exact Hq.
Qed.

Lemma submitted_pages_of_submissions endpoint_type
    (params : gmap string pyval) (pages : list Z) :
  submitted_pages
    (map (fun page => EvSubmit endpoint_type (<["page" := PInt page]> params))
         pages)
  = map (fun page => Some (PInt page)) pages.
Proof.
  induction pages as [|page rest IH]; [reflexivity|].
  cbn [map]. rewrite <- IH. unfold submitted_pages. cbn.
  rewrite lookup_insert_eq. reflexivity.
Qed.

(** X15.  Whatever page the caller names, the tasks submitted are those of pages
    1 to [n], the page count that the probe gave. *)
Lemma fetch_all_submits_from_page_one env endpoint_type params self n :
  result (get_total_pages env endpoint_type params self) = Ret (PInt n) ->
  submitted_pages
    (output (fetch_all_data_bridges_data env endpoint_type params self))
  = map (fun i => Some (PInt (1 + Z.of_nat i))) (seq 0 (Z.to_nat n)).
Proof.
  intros Hn.
  pose proof (get_total_pages_submits_nothing env endpoint_type params self)
    as Hq.
  destruct (get_total_pages env endpoint_type params self)
    as [[r self'] out] eqn:Hpages.
  unfold result, output in Hn, Hq. cbn [fst snd] in Hn, Hq. subst r.
  rewrite (fetch_all_run _ _ _ _ _ _ _ Hpages).
  unfold mbind at 1, M_bind at 1, bind at 1. rewrite submit_pages_run.
  unfold mbind at 1, M_bind at 1, bind at 1.
  destruct (run_pool_submits_nothing env endpoint_type
              (map (fun page => <["page" := PInt page]> (<["page" := PInt 1]> params))
                   (map (fun i => 1 + Z.of_nat i) (seq 0 (Z.to_nat n)))) self')
    as (Hpool & completed & Hcompleted).
  destruct (run_pool env endpoint_type _ self') as [[r self''] out'].
  unfold result, output in Hpool, Hcompleted. cbn [fst snd] in Hpool, Hcompleted.
  subst r.
  destruct (collect_is_silent completed pd_DataFrame_empty self'')
    as (Hsilent & _).
  destruct (collect pd_DataFrame_empty completed self'') as [[r self3] out3].
  unfold output in *. cbn [fst snd] in *. subst out3.
  rewrite !submitted_pages_app, Hq, Hpool, !app_nil_r. cbn [app].
  rewrite submitted_pages_of_submissions, map_map. reflexivity.
Qed.

(** C3: the code at a caller-given starting page.  The caller asks for the
    pages from 3 on and the probe finds 5 pages: the tasks submitted are
    those of pages 1, 2, 3, 4 and 5, not of pages 3, 4 and 5 only. *)
Theorem fetch_all_ignores_starting_page :
  currency_params !! "page" = Some (PInt 3)
  /\ result (get_total_pages (serves 5000) CURRENCY_USD_QUOTE currency_params
               repository) = Ret (PInt 5)
  /\ submitted_pages
       (output (fetch_all_data_bridges_data (serves 5000) CURRENCY_USD_QUOTE
                  currency_params repository))
     = [Some (PInt 1); Some (PInt 2); Some (PInt 3); Some (PInt 4);
        Some (PInt 5)]
  /\ submitted_pages
       (output (fetch_all_data_bridges_data (serves 5000) CURRENCY_USD_QUOTE
                  currency_params repository))
     <> [Some (PInt 3); Some (PInt 4); Some (PInt 5)].
Proof.
  split; [reflexivity|].
  split; [vm_compute; reflexivity|].
  split; [vm_compute; reflexivity|].
  vm_compute. discriminate.
Qed.

(** ** Claims on item normalisation *)

Lemma dicts_of_objects (objs : list (gmap string pyval)) :
  dicts_of (PObject <$> objs) = Ret (PDict <$> objs).
Proof.
  induction objs as [|attrs objs IH]; [reflexivity|].
  cbn. cbn in IH. rewrite IH. reflexivity.
Qed.

(** C9.  A non-empty list of instances is turned into the list of their
    attribute dictionaries: one mapping per item, in order, the mapping of
    an item having exactly the attribute names of that item as its keys.  A
    list of items none of which has a [__dict__] is returned as it is. *)
Theorem normalize_items_flattens_objects :
  (forall objs : list (gmap string pyval),
     objs <> [] ->
     normalize_items (PList (PObject <$> objs)) = Ret (PList (PDict <$> objs))
     /\ exists rows : list (gmap string pyval),
          normalize_items (PList (PObject <$> objs))
          = Ret (PList (PDict <$> rows))
          /\ length rows = length objs
          /\ forall i attrs row,
               objs !! i = Some attrs -> rows !! i = Some row ->
               dom row = dom attrs /\ row = attrs)
  /\ (forall items : list pyval,
        Forall (fun item => has__dict__ item = false) items ->
        normalize_items (PList items) = Ret (PList items)).
Proof.
  split.
  - intros objs Hne.
    assert (Hrun : normalize_items (PList (PObject <$> objs))
                   = Ret (PList (PDict <$> objs))).
    { destruct objs as [|attrs objs]; [congruence|].
      unfold normalize_items.
      change (flattens (PList (PObject <$> attrs :: objs))) with true.
      cbv iota. rewrite dicts_of_objects. reflexivity. }
    split; [exact Hrun|].
    exists objs. split; [exact Hrun|]. split; [reflexivity|].
    intros i attrs row Hattrs Hrow.
    assert (row = attrs) as -> by congruence.
    split; reflexivity.
  - intros items Hprim. unfold normalize_items.
    destruct Hprim as [|first rest Hfirst _]; [reflexivity|].
    cbn [flattens]. rewrite Hfirst. reflexivity.
Qed.

Lemma normalize_items_flattens_objects_witness :
  normalize_items
    (PList [PObject (<["currency_name" := PStr "Naira"]> (<["value" := PInt 1500]> ∅));
            PObject (<["currency_name" := PStr "Cedi"]> ∅)])
  = Ret (PList [PDict (<["currency_name" := PStr "Naira"]> (<["value" := PInt 1500]> ∅));
                PDict (<["currency_name" := PStr "Cedi"]> ∅)])
  /\ normalize_items (PList [PInt 1; PStr "NGA"; PNone])
     = Ret (PList [PInt 1; PStr "NGA"; PNone]).
Proof.
  split.
  - apply (proj1 normalize_items_flattens_objects
             [<["currency_name" := PStr "Naira"]> (<["value" := PInt 1500]> ∅);
              <["currency_name" := PStr "Cedi"]> ∅]).
    discriminate.
  - apply (proj2 normalize_items_flattens_objects
             [PInt 1; PStr "NGA"; PNone]).
    repeat constructor.
Defined.

Lemma normalize_items_plain (items : list pyval) :
  Forall (fun item => has__dict__ item = false) items ->
  normalize_items (PList items) = Ret (PList items).
Proof.
  intros Hplain. unfold normalize_items.
  destruct Hplain as [|first rest Hfirst _]; [reflexivity|].
  cbn [flattens]. rewrite Hfirst. reflexivity.
Qed.

Lemma dicts_of_returns (items ds : list pyval) :
  dicts_of items = Ret ds ->
  length ds = length items
  /\ Forall (fun item => has__dict__ item = true) items
  /\ Forall (fun d => has__dict__ d = false) ds.
Proof.
  revert ds. induction items as [|obj rest IH]; intros ds Hrun.
  - cbn in Hrun. injection Hrun as <-. repeat split; constructor.
  - cbn [dicts_of] in Hrun.
    destruct obj; cbn in Hrun; try discriminate.
    destruct (dicts_of rest) as [ds'|e]; [|discriminate].
    injection Hrun as <-.
    destruct (IH ds' eq_refl) as (Hlen & Hobjs & Hdicts).
    repeat split; [cbn; lia | constructor; [reflexivity|exact Hobjs]
                  | constructor; [reflexivity|exact Hdicts]].
Qed.

Lemma dicts_of_raises (items : list pyval) :
  Exists (fun item => has__dict__ item = false) items ->
  dicts_of items = Raise AttributeError.
Proof.
  induction items as [|obj rest IH]; intros Hex.
  - inversion Hex.
  - cbn [dicts_of].
    destruct obj; try reflexivity.
    cbn. rewrite IH; [reflexivity|].
    inversion Hex as [? ? Hhead|? ? Htail]; [discriminate Hhead|exact Htail].
Qed.

Lemma objects_or_plain (items : list pyval) :
  (exists objs : list (gmap string pyval), items = PObject <$> objs)
  \/ Exists (fun item => has__dict__ item = false) items.
Proof.
  induction items as [|item items IH]; [left; exists []; reflexivity|].
  destruct item as [| | | | |attrs|];
    try (right; apply Exists_cons_hd; reflexivity).
  destruct IH as [(objs & ->)|Hex].
  - left. exists (attrs :: objs). reflexivity.
  - right. apply Exists_cons_tl. exact Hex.
Qed.

(** What [normalize_items] does with a list whose first element is an
    instance: it flattens, whatever the other elements are. *)
Lemma normalize_items_of_instance attrs (rest : list pyval) :
  (exists objs : list (gmap string pyval),
     rest = PObject <$> objs
     /\ normalize_items (PList (PObject attrs :: rest))
        = Ret (PList (PDict attrs :: (PDict <$> objs))))
  \/ (Exists (fun item => has__dict__ item = false) rest
      /\ normalize_items (PList (PObject attrs :: rest)) = Raise AttributeError).
Proof.
  destruct (objects_or_plain rest) as [(objs & ->)|Hex].
  - left. exists objs. split; [reflexivity|].
    unfold normalize_items. cbn [flattens has__dict__].
    change (PObject attrs :: (PObject <$> objs))
      with (PObject <$> attrs :: objs).
    rewrite dicts_of_objects. reflexivity.
  - right. split; [exact Hex|].
    unfold normalize_items. cbn [flattens has__dict__].
    rewrite dicts_of_raises; [reflexivity|].
    apply Exists_cons_tl. exact Hex.
Qed.

(** C10.  [normalize_items] returns its argument as it is exactly when the
    argument is not a list, is the empty list, or is a list whose first
    element has no [__dict__], whatever the elements after the first are.
    A list whose first element is an instance is never returned as it is,
    whatever the elements after the first are: it is flattened, into the
    list of the attribute dictionaries when every element is an instance,
    and with [AttributeError] when one is not.  So whether the argument
    comes back unchanged is settled by the first element alone. *)
Theorem normalize_items_decides_on_first :
  (forall response_items,
     (forall l, response_items <> PList l) ->
     normalize_items response_items = Ret response_items)
  /\ normalize_items (PList []) = Ret (PList [])
  /\ (forall first rest,
        has__dict__ first = false ->
        normalize_items (PList (first :: rest)) = Ret (PList (first :: rest)))
  /\ (forall first rest,
        has__dict__ first = true ->
        normalize_items (PList (first :: rest)) <> Ret (PList (first :: rest))
        /\ ((exists objs : list (gmap string pyval),
               first :: rest = PObject <$> objs
               /\ normalize_items (PList (first :: rest))
                  = Ret (PList (PDict <$> objs)))
            \/ (Exists (fun item => has__dict__ item = false) rest
                /\ normalize_items (PList (first :: rest))
                   = Raise AttributeError)))
  /\ (forall response_items,
        normalize_items response_items = Ret response_items <->
        ((forall l, response_items <> PList l)
         \/ response_items = PList []
         \/ exists first rest,
              response_items = PList (first :: rest)
              /\ has__dict__ first = false))
  /\ (forall first rest rest',
        normalize_items (PList (first :: rest)) = Ret (PList (first :: rest))
        <-> normalize_items (PList (first :: rest'))
            = Ret (PList (first :: rest'))).
Proof.
  assert (Hnot : forall response_items,
            (forall l, response_items <> PList l) ->
            normalize_items response_items = Ret response_items).
  { intros response_items Hnot. unfold normalize_items.
    destruct response_items; try reflexivity.
    exfalso. eapply Hnot. reflexivity. }
  assert (Hplain : forall first rest,
            has__dict__ first = false ->
            normalize_items (PList (first :: rest)) = Ret (PList (first :: rest))).
  { intros first rest Hfirst. unfold normalize_items.
    cbn [flattens]. rewrite Hfirst. reflexivity. }
  assert (Hinst : forall first rest,
            has__dict__ first = true ->
            normalize_items (PList (first :: rest)) <> Ret (PList (first :: rest))
            /\ ((exists objs : list (gmap string pyval),
                   first :: rest = PObject <$> objs
                   /\ normalize_items (PList (first :: rest))
                      = Ret (PList (PDict <$> objs)))
                \/ (Exists (fun item => has__dict__ item = false) rest
                    /\ normalize_items (PList (first :: rest))
                       = Raise AttributeError))).
  { intros first rest Hfirst.
    destruct first as [| | | | |attrs|]; try discriminate Hfirst.
    destruct (normalize_items_of_instance attrs rest)
      as [(objs & -> & Hrun)|(Hex & Hrun)].
    - split; [rewrite Hrun; intros [=]|].
      left. exists (attrs :: objs). split; [reflexivity|exact Hrun].
    - split; [rewrite Hrun; discriminate|].
      right. split; [exact Hex|exact Hrun]. }
  split; [exact Hnot|]. split; [reflexivity|]. split; [exact Hplain|].
  split; [exact Hinst|]. split.
  - intros response_items. split.
    + intros Hsame.
      destruct response_items as [| | |[|first rest]| | |];
        try (left; intros l; discriminate).
      * right. left. reflexivity.
      * right. right. exists first, rest. split; [reflexivity|].
        destruct (has__dict__ first) eqn:Hfirst; [|reflexivity].
        exfalso. exact (proj1 (Hinst first rest Hfirst) Hsame).
    + intros [Hno|[->|(first & rest & -> & Hfirst)]].
      * apply Hnot. exact Hno.
      * reflexivity.
      * apply Hplain. exact Hfirst.
  - intros first rest rest'.
    destruct (has__dict__ first) eqn:Hfirst.
    + split; intros Hsame; exfalso;
        [exact (proj1 (Hinst first rest Hfirst) Hsame)
        |exact (proj1 (Hinst first rest' Hfirst) Hsame)].
    + split; intros _; apply Hplain; exact Hfirst.
Qed.

Lemma normalize_items_decides_on_first_witness :
  normalize_items (PDict (<["items" := PList []]> ∅))
  = Ret (PDict (<["items" := PList []]> ∅))
  /\ normalize_items (PList [PInt 7; quote 1500])
     = Ret (PList [PInt 7; quote 1500])
  /\ normalize_items (PList [quote 1500; PInt 7])
     <> Ret (PList [quote 1500; PInt 7]).
Proof.
  destruct normalize_items_decides_on_first as (Hnot & _ & Hplain & Hinst & _).
  split; [|split].
  - apply Hnot. intros l. discriminate.
  - apply Hplain. reflexivity.
  - apply (Hinst (quote 1500) [PInt 7]). reflexivity.
Defined.

(** * Further properties of the code *)

(** ** Members by label *)

(** X1.  [from_label] inverts [value]: the label of a member leads back to that
    member, a label leads to a member only if it is that member's label, and
    a label of no member raises [ValueError]. *)
Theorem from_label_inverts_value :
  (forall e, from_label (value e) = Ret e)
  /\ (forall label e, from_label label = Ret e <-> value e = label)
  /\ (forall label,
        (forall e, value e <> label) <-> from_label label = Raise ValueError).
Proof.
  assert (Hround : forall e, from_label (value e) = Ret e)
    by (intros []; vm_compute; reflexivity).
  assert (Hsound : forall label e, from_label label = Ret e -> value e = label).
  { intros label e. unfold from_label, members. cbn [from_label_loop].
    repeat case_bool_decide; intros Hrun; congruence. }
  assert (Hnone : forall label,
            (forall e, value e <> label) -> from_label label = Raise ValueError).
  { intros label Hno. unfold from_label, members. cbn [from_label_loop].
    repeat case_bool_decide; try reflexivity;
      exfalso; eapply Hno; eassumption. }
  split; [exact Hround|]. split.
  - intros label e. split; [apply Hsound|].
    intros <-. apply Hround.
  - intros label. split; [apply Hnone|].
    intros Hraise e <-. rewrite Hround in Hraise. discriminate.
Qed.

Lemma from_label_inverts_value_witness :
  from_label "vamdatabridges_economicdata_get" = Ret ECONOMIC_DATA_VALUES
  /\ from_label "vamdatabridges_markets_get" = Raise ValueError.
Proof.
  destruct from_label_inverts_value as (_ & Hiff & Hnone).
  split.
  - apply Hiff. reflexivity.
  - apply Hnone. intros []; discriminate.
Defined.

(** ** More on item normalisation *)

(** X19.  Normalising twice is normalising once: what [normalize_items] returns,
    it returns unchanged when given it again. *)
Theorem normalize_items_idempotent response_items normalized :
  normalize_items response_items = Ret normalized ->
  normalize_items normalized = Ret normalized.
Proof.
  unfold normalize_items at 1.
  destruct (flattens response_items) eqn:Hflat.
  - destruct response_items as [| | |l| | |]; try discriminate.
    destruct (dicts_of l) as [ds|e] eqn:Hds; [|discriminate].
    intros [= <-]. apply normalize_items_plain.
    apply (dicts_of_returns _ _ Hds).
  - intros [= <-]. unfold normalize_items. rewrite Hflat. reflexivity.
Qed.

Lemma normalize_items_idempotent_witness :
  normalize_items (PList [PDict (<["value" := PInt 1500]> ∅)])
  = Ret (PList [PDict (<["value" := PInt 1500]> ∅)]).
Proof.
  apply (normalize_items_idempotent
           (PList [PObject (<["value" := PInt 1500]> ∅)])).
  reflexivity.
Defined.

(** X20.  A list that starts with an instance is flattened as a whole or not at
    all: if an element after the first has no [__dict__] the call raises
    [AttributeError], and when it returns, it returns a list of the same
    length. *)
Theorem normalize_items_all_or_nothing attrs (rest : list pyval) :
  (Exists (fun item => has__dict__ item = false) rest ->
   normalize_items (PList (PObject attrs :: rest)) = Raise AttributeError)
  /\ (forall normalized,
        normalize_items (PList (PObject attrs :: rest)) = Ret normalized ->
        exists ds, normalized = PList ds
                   /\ length ds = S (length rest)
                   /\ Forall (fun item => has__dict__ item = true) rest).
Proof.
  split.
  - intros Hex. unfold normalize_items. cbn [flattens has__dict__].
    rewrite dicts_of_raises; [reflexivity|].
    apply Exists_cons_tl. exact Hex.
  - intros normalized. unfold normalize_items. cbn [flattens has__dict__].
    destruct (dicts_of (PObject attrs :: rest)) as [ds|e] eqn:Hds;
      [|discriminate].
    intros [= <-]. exists ds.
    destruct (dicts_of_returns _ _ Hds) as (Hlen & Hobjs & _).
    split; [reflexivity|]. split; [exact Hlen|].
    inversion Hobjs; assumption.
Qed.

Lemma normalize_items_all_or_nothing_witness :
  normalize_items (PList [quote 1500; PInt 7]) = Raise AttributeError.
Proof.
  apply (proj1 (normalize_items_all_or_nothing
                  (<["currency_name" := PStr "Naira"]> (<["value" := PInt 1500]> ∅))
                  [PInt 7])).
  apply Exists_cons_hd. reflexivity.
Defined.

(** ** More on the token refresh *)

Lemma total_sleep_app out1 out2 :
  total_sleep (out1 ++ out2) = total_sleep out1 + total_sleep out2.
Proof.
  unfold total_sleep. rewrite sleeps_app.
  induction (sleeps out1) as [|w ws IH]; cbn; [reflexivity|].
  rewrite IH. lia.
Qed.

Lemma total_sleep_powers a k :
  foldr Z.add 0 (map (fun j => 2 ^ Z.of_nat j) (seq a k))
  = 2 ^ Z.of_nat a * (2 ^ Z.of_nat k - 1).
Proof.
  revert a. induction k as [|k IH]; intros a; [cbn; lia|].
  cbn [seq map foldr]. rewrite IH.
  rewrite !Nat2Z.inj_succ, !Z.pow_succ_r by lia. lia.
Qed.

(** What the loop of the token refresh does in every case: it asks the
    provider at most once per attempt, waits no longer than the attempts
    allow, and stores a token exactly when it returns. *)
Lemma refresh_attempts_bounds env attempts key secret scopes :
  forall self,
    (token_requests
       (output (refresh_attempts env 2 attempts key secret scopes self))
     <= length attempts)%nat
    /\ 0 <= total_sleep
              (output (refresh_attempts env 2 attempts key secret scopes self))
         <= foldr Z.add 0 (map (fun j => 2 ^ Z.of_nat j) attempts)
    /\ token_calls (final (refresh_attempts env 2 attempts key secret scopes self))
       = (token_calls self
          + token_requests
              (output (refresh_attempts env 2 attempts key secret scopes self)))%nat
    /\ match result (refresh_attempts env 2 attempts key secret scopes self) with
       | Ret _ =>
           is_Some (access_token
                      (final (refresh_attempts env 2 attempts key secret scopes
                                self)))
       | Raise _ =>
           access_token
             (final (refresh_attempts env 2 attempts key secret scopes self))
           = access_token self
       end.
Proof.
  induction attempts as [|attempt rest IH]; intros self.
  - cbn. repeat split; try reflexivity; lia.
  - assert (Hpow : 0 <= 2 ^ Z.of_nat attempt) by (apply Z.pow_nonneg; lia).
    assert (Hrest : 0 <= foldr Z.add 0 (map (fun j => 2 ^ Z.of_nat j) rest)).
    { clear. induction rest as [|j rest IH]; cbn [map foldr]; [lia|].
      assert (0 <= 2 ^ Z.of_nat j) by (apply Z.pow_nonneg; lia). lia. }
    cbn [refresh_attempts]. unfold try_except at 1. run_monad.
    destruct (token_provider env (token_calls self) key secret scopes)
      as [token|e].
    { cbn. repeat split; try lia. eexists; reflexivity. }
    destruct e; try (cbn; repeat split; try reflexivity; lia).
    destruct (retryable status);
      [|cbn; repeat split; try reflexivity; lia].
    specialize (IH (count_token_call self)).
    destruct (refresh_attempts env 2 rest key secret scopes
                (count_token_call self)) as [[r self'] out].
    unfold result, final, output in *. cbn [fst snd] in *.
    destruct IH as (Hreq & Hsleep & Hcount & Htoken).
    cbn [app].
    change (total_sleep (EvToken key secret scopes
              :: EvLog WARNING (TokenRefreshRetrying status (2 ^ Z.of_nat attempt))
              :: EvSleep (2 ^ Z.of_nat attempt) :: out))
      with (2 ^ Z.of_nat attempt + total_sleep out).
    change (token_requests (EvToken key secret scopes
              :: EvLog WARNING (TokenRefreshRetrying status (2 ^ Z.of_nat attempt))
              :: EvSleep (2 ^ Z.of_nat attempt) :: out))
      with (S (token_requests out)).
    cbn [length map foldr]. cbn [token_calls count_token_call] in Hcount.
    split; [lia|]. split; [lia|]. split; [lia|].
    destruct r; [exact Htoken|exact Htoken].
Qed.

Lemma refresh_attempts_credentials env attempts k s sc :
  forall self,
    key (final (refresh_attempts env 2 attempts k s sc self)) = key self
    /\ secret (final (refresh_attempts env 2 attempts k s sc self)) = secret self
    /\ scopes (final (refresh_attempts env 2 attempts k s sc self)) = scopes self.
Proof.
  induction attempts as [|attempt rest IH]; intros self.
  - repeat split; reflexivity.
  - cbn [refresh_attempts]. unfold try_except at 1. run_monad.
    destruct (token_provider env (token_calls self) k s sc) as [token|e];
      [repeat split; reflexivity|].
    destruct e; try (repeat split; reflexivity).
    destruct (retryable status); [|repeat split; reflexivity].
    specialize (IH (count_token_call self)).
    destruct (refresh_attempts env 2 rest k s sc (count_token_call self))
      as [[r self'] out].
    exact IH.
Qed.

(** What a run of [_refresh_access_token] leaves behind. *)
Lemma refresh_access_token_footprint env k s sc self r self' out :
  _refresh_access_token env k s sc self = (r, self', out) ->
  (token_requests out <= 5)%nat
  /\ 0 <= total_sleep out <= 31
  /\ calls out = []
  /\ refresh_invocations out = 1%nat
  /\ clients_built out = []
  /\ endpoint_dict self' = endpoint_dict self
  /\ remote_calls self' = remote_calls self
  /\ api_client self' = api_client self
  /\ token_calls self' = (token_calls self + token_requests out)%nat
  /\ (key self' = key self /\ secret self' = secret self
      /\ scopes self' = scopes self)
  /\ match r with
     | Ret _ => is_Some (access_token self')
     | Raise _ => access_token self' = access_token self
     end.
Proof.
  intros Hrun.
  pose proof (refresh_access_token_frame env k s sc self)
    as (Hcalls & Hinv & Hbuilt & Hdict & Hremote & Hclient).
  pose proof (refresh_attempts_bounds env (seq 0 5) k s sc self) as Hbounds.
  pose proof (refresh_attempts_credentials env (seq 0 5) k s sc self) as Hcred.
  destruct (refresh_attempts env 2 (seq 0 5) k s sc self)
    as [[r1 self1] out1] eqn:Hloop.
  rewrite (refresh_access_token_run _ _ _ _ _ _ _ _ Hloop) in *.
  injection Hrun as <- <- <-.
  unfold result, final, output in *. cbn [fst snd] in *.
  destruct Hbounds as (Hreq & Hsleep & Hcount & Htoken).
  change (token_requests (EvLog INFO TokenRefreshCalled :: out1))
    with (token_requests out1).
  change (total_sleep (EvLog INFO TokenRefreshCalled :: out1))
    with (total_sleep out1).
  rewrite total_sleep_powers in Hsleep. cbn in Hreq, Hsleep.
  repeat split; try assumption; try lia; apply Hcred.
Qed.

(** X6.  [_refresh_access_token] in every case: at most five requests to the
    provider and at most 31 time units of waiting; the transport is not
    invoked and the dictionary of endpoints is not touched; a token is
    stored when the method returns, and the token held before is still
    there when it raises. *)
Theorem refresh_access_token_bounds env key secret scopes self :
  let run := _refresh_access_token env key secret scopes self in
  (token_requests (output run) <= 5)%nat
  /\ 0 <= total_sleep (output run) <= 31
  /\ calls (output run) = []
  /\ endpoint_dict (final run) = endpoint_dict self
  /\ token_calls (final run)
     = (token_calls self + token_requests (output run))%nat
  /\ match result run with
     | Ret _ => is_Some (access_token (final run))
     | Raise _ => access_token (final run) = access_token self
     end.
Proof.
  intros run. subst run.
  destruct (_refresh_access_token env key secret scopes self)
    as [[r self'] out] eqn:Hrun.
  destruct (refresh_access_token_footprint _ _ _ _ _ _ _ _ Hrun)
    as (Hreq & Hsleep & Hcalls & _ & _ & Hdict & _ & _ & Hcount & _ & Htoken).
  unfold result, final, output. cbn [fst snd].
  repeat split; try assumption; lia.
Qed.

(** X4.  The refresh returns as soon as the provider answers: after [k] requests
    that met a retried status, with the waits 1, 2, ..., 2^(k-1) between
    them, the token of request [k + 1] is stored. *)
Theorem refresh_succeeds_after_retries env key secret scopes self k token :
  (k < 5)%nat ->
  (forall i, (i < k)%nat ->
     exists s, token_provider env (token_calls self + i) key secret scopes
               = Raise (ApiException s) /\ s ∈ retry_statuses) ->
  token_provider env (token_calls self + k) key secret scopes = Ret token ->
  exists out,
    _refresh_access_token env key secret scopes self
    = (Ret tt, set_access_token token (after_token_calls (S k) self), out)
    /\ token_requests out = S k
    /\ sleeps out = map (fun j => 2 ^ Z.of_nat j) (seq 0 k)
    /\ last out = Some (EvLog INFO TokenRefreshed).
Proof.
  intros Hk Hfail Hok.
  destruct (refresh_attempts_prefix env key secret scopes k 0
              (k :: seq (S k) (4 - k)) self
              (Ret tt) (set_access_token token (after_token_calls (S k) self))
              [EvToken key secret scopes; EvLog INFO TokenRefreshed])
    as (statuses & Hlen & Hrun).
  { intros i Hi. destruct (Hfail i Hi) as (s & Hs & Hin).
    exists s. split; [exact Hs | apply retryable_elem_of; exact Hin]. }
  { cbn [refresh_attempts]. unfold try_except at 1. run_monad.
    rewrite token_calls_after_token_calls, Hok. reflexivity. }
  eexists. split.
  { apply refresh_access_token_run.
    replace 5%nat with (k + S (4 - k))%nat by lia.
    rewrite seq_app. cbn [seq Nat.add]. exact Hrun. }
  assert (Hlen' : length statuses = length (seq 0 k))
    by (rewrite length_seq; exact Hlen).
  change (EvLog INFO TokenRefreshCalled :: ?l)
    with ([EvLog INFO TokenRefreshCalled] ++ l).
  rewrite !token_requests_app, !sleeps_app.
  rewrite token_requests_failed_tokens, sleeps_failed_tokens by exact Hlen'.
  rewrite length_seq. split; [cbn; lia|]. split.
  - cbn. rewrite app_nil_r. reflexivity.
  - rewrite app_assoc.
    change [EvToken key secret scopes; EvLog INFO TokenRefreshed]
      with ([EvToken key secret scopes] ++ [EvLog INFO TokenRefreshed]).
    rewrite app_assoc. apply last_snoc.
Qed.

(** X5.  An exception of the provider that is no [ApiException] is not retried:
    it is logged as unexpected and raised again at the attempt that met it. *)
Theorem refresh_raises_unexpected env key secret scopes self k e :
  (k < 5)%nat ->
  (forall i, (i < k)%nat ->
     exists s, token_provider env (token_calls self + i) key secret scopes
               = Raise (ApiException s) /\ s ∈ retry_statuses) ->
  token_provider env (token_calls self + k) key secret scopes = Raise e ->
  (forall status, e <> ApiException status) ->
  exists out,
    _refresh_access_token env key secret scopes self
    = (Raise e, after_token_calls (S k) self, out)
    /\ token_requests out = S k
    /\ sleeps out = map (fun j => 2 ^ Z.of_nat j) (seq 0 k)
    /\ last out = Some (EvLog ERROR (TokenRefreshUnexpected e)).
Proof.
  intros Hk Hfail He Hother.
  destruct (refresh_attempts_prefix env key secret scopes k 0
              (k :: seq (S k) (4 - k)) self
              (Raise e) (after_token_calls (S k) self)
              [EvToken key secret scopes;
               EvLog ERROR (TokenRefreshUnexpected e)])
    as (statuses & Hlen & Hrun).
  { intros i Hi. destruct (Hfail i Hi) as (s & Hs & Hin).
    exists s. split; [exact Hs | apply retryable_elem_of; exact Hin]. }
  { cbn [refresh_attempts]. unfold try_except at 1. run_monad.
    rewrite token_calls_after_token_calls, He.
    destruct e; try reflexivity. exfalso. eapply Hother. reflexivity. }
  eexists. split.
  { apply refresh_access_token_run.
    replace 5%nat with (k + S (4 - k))%nat by lia.
    rewrite seq_app. cbn [seq Nat.add]. exact Hrun. }
  assert (Hlen' : length statuses = length (seq 0 k))
    by (rewrite length_seq; exact Hlen).
  change (EvLog INFO TokenRefreshCalled :: ?l)
    with ([EvLog INFO TokenRefreshCalled] ++ l).
  rewrite !token_requests_app, !sleeps_app.
  rewrite token_requests_failed_tokens, sleeps_failed_tokens by exact Hlen'.
  rewrite length_seq. split; [cbn; lia|]. split.
  - cbn. rewrite app_nil_r. reflexivity.
  - rewrite app_assoc.
    change [EvToken key secret scopes; EvLog ERROR (TokenRefreshUnexpected e)]
      with ([EvToken key secret scopes]
            ++ [EvLog ERROR (TokenRefreshUnexpected e)]).
    rewrite app_assoc. apply last_snoc.
Qed.

(** ** More on the single-page fetch *)

(** X7.  A first call that answers, or that raises an exception which is neither
    an expired token nor a retried status, settles the fetch: the operation
    is invoked once, the answer is returned or the exception logged and
    raised again, and nothing else happens. *)
Theorem fetch_page_single_call env self endpoint params m r :
  endpoint_dict self !! endpoint = Some m ->
  transport env (remote_calls self) m params = r ->
  match r with
  | Ret _ => True
  | Raise e => settled e
  end ->
  fetch_data_one_page env endpoint params self
  = (r, count_remote_call self,
     EvCall m params
     :: match r with
        | Ret _ => []
        | Raise (ApiException status) =>
            [EvLog ERROR (ApiExceptionLogged (ApiException status))]
        | Raise e => [EvLog ERROR (ErrorFetchingData e)]
        end).
Proof.
  intros Hdict Hcall Hsettled.
  unfold fetch_data_one_page. run_monad. rewrite Hdict.
  unfold invoke at 1. rewrite Hcall.
  destruct r as [response|e]; [reflexivity|].
  destruct e; try reflexivity.
  destruct Hsettled as (Hnot401 & Hretry).
  rewrite bool_decide_eq_false_2 by exact Hnot401. rewrite Hretry.
  reflexivity.
Qed.

(** The loop stops at the first exception it does not retry. *)
Lemma retry_with_backoff_raises env m p self e k :
  (k < 10)%nat ->
  (forall i, (i < k)%nat ->
     exists s, transport env (remote_calls self + i) m p
               = Raise (ApiException s) /\ retryable s = true) ->
  transport env (remote_calls self + k) m p = Raise e ->
  not_retried e ->
  _retry_with_backoff env m p self
  = (Raise e, after_calls (S k) self,
     flat_map (failed_call m p) (seq 0 k) ++ [EvCall m p]).
Proof.
  intros Hk Hfail He Hnot. unfold _retry_with_backoff.
  replace 10%nat with (k + S (9 - k))%nat by lia.
  rewrite seq_app. cbn [seq Nat.add].
  apply retry_attempts_prefix; [exact Hfail|].
  cbn [retry_attempts]. unfold try_except, invoke.
  rewrite remote_calls_after_calls, He.
  destruct e; try reflexivity.
  cbn in Hnot. rewrite Hnot. reflexivity.
Qed.

Lemma refresh_invocations_app out1 out2 :
  refresh_invocations (out1 ++ out2)
  = (refresh_invocations out1 + refresh_invocations out2)%nat.
Proof. unfold refresh_invocations. rewrite List.filter_app. apply length_app. Qed.

Lemma quiet_failed_calls m p attempts :
  token_requests (flat_map (failed_call m p) attempts) = 0%nat
  /\ refresh_invocations (flat_map (failed_call m p) attempts) = 0%nat.
Proof.
  induction attempts as [|j attempts (IHt & IHr)]; [split; reflexivity|].
  cbn [flat_map]. rewrite token_requests_app, refresh_invocations_app, IHt, IHr.
  split; reflexivity.
Qed.

(** X8.  Once the fetch is in the retry loop, an exception that the loop does not
    retry ends it at once, an expired token included: status 401 met during
    the backoff is raised, and no token is requested. *)
Theorem fetch_page_stops_at_unretried env self endpoint params m e k :
  (k < 10)%nat ->
  endpoint_dict self !! endpoint = Some m ->
  (forall i, (i <= k)%nat ->
     exists s, transport env (remote_calls self + i) m params
               = Raise (ApiException s) /\ s ∈ retry_statuses) ->
  transport env (remote_calls self + S k) m params = Raise e ->
  not_retried e ->
  exists out,
    fetch_data_one_page env endpoint params self
    = (Raise e, after_calls (S (S k)) self, out)
    /\ length (calls out) = S (S k)
    /\ sleeps out = map (fun j => 2 ^ Z.of_nat j) (seq 0 k)
    /\ token_requests out = 0%nat
    /\ refresh_invocations out = 0%nat.
Proof.
  intros Hk Hdict Hfail He Hnot.
  destruct (Hfail 0%nat) as (s0 & Hs0 & Hin0); [lia|].
  rewrite Nat.add_0_r in Hs0.
  assert (Hr0 : retryable s0 = true) by (apply retryable_elem_of; exact Hin0).
  assert (Hloop := retry_with_backoff_raises env m params
                     (count_remote_call self) e k Hk).
  rewrite <- !after_calls_S in Hloop.
  eexists. split.
  { unfold fetch_data_one_page. run_monad. rewrite Hdict.
    unfold invoke at 1. rewrite Hs0, (retryable_not_401 _ Hr0), Hr0.
    rewrite Hloop; [reflexivity| | |exact Hnot].
    - intros i Hi. destruct (Hfail (S i)) as (s & Hs & Hin); [lia|].
      exists s. split; [|apply retryable_elem_of; exact Hin].
      cbn. rewrite <- Hs. f_equal. lia.
    - cbn. rewrite <- He. f_equal. lia. }
  destruct (quiet_failed_calls m params (seq 0 k)) as (Htok & Hinv).
  change (EvCall m params :: EvLog WARNING ?msg :: ?l)
    with ([EvCall m params; EvLog WARNING msg] ++ l).
  rewrite !calls_app, !sleeps_app, !token_requests_app,
    !refresh_invocations_app, calls_failed_calls, sleeps_failed_calls,
    Htok, Hinv.
  rewrite !length_app, length_map, length_seq.
  repeat split; cbn; try lia. rewrite app_nil_r. reflexivity.
Qed.

Lemma powers_nonneg (attempts : list nat) :
  0 <= foldr Z.add 0 (map (fun j => 2 ^ Z.of_nat j) attempts).
Proof.
  induction attempts as [|j rest IH]; cbn [map foldr]; [lia|].
  assert (0 <= 2 ^ Z.of_nat j) by (apply Z.pow_nonneg; lia). lia.
Qed.

(** The loop of [_retry_with_backoff] in every case: it changes nothing of
    the instance but the count of calls, invokes the one method it was
    given, once per attempt at most, and asks for no token. *)
Lemma retry_attempts_footprint env attempts m p :
  forall self r self' out,
    retry_attempts env 2 attempts m p self = (r, self', out) ->
    self' = after_calls (length (calls out)) self
    /\ (length (calls out) <= length attempts)%nat
    /\ Forall (eq (m, p)) (calls out)
    /\ 0 <= total_sleep out
         <= foldr Z.add 0 (map (fun j => 2 ^ Z.of_nat j) attempts)
    /\ token_requests out = 0%nat
    /\ refresh_invocations out = 0%nat
    /\ clients_built out = [].
Proof.
  induction attempts as [|attempt rest IH]; intros self r self' out Hrun.
  - cbn in Hrun. injection Hrun as <- <- <-.
    cbn. repeat split; try reflexivity; try lia. constructor.
  - pose proof (powers_nonneg (attempt :: rest)) as Hall.
    pose proof (powers_nonneg rest) as Hrest.
    assert (Hpow : 0 <= 2 ^ Z.of_nat attempt) by (apply Z.pow_nonneg; lia).
    assert (Hstop : forall r0,
              (r0, count_remote_call self, [EvCall m p]) = (r, self', out) ->
              self' = after_calls (length (calls out)) self
              /\ (length (calls out) <= length (attempt :: rest))%nat
              /\ Forall (eq (m, p)) (calls out)
              /\ 0 <= total_sleep out
                   <= foldr Z.add 0
                        (map (fun j => 2 ^ Z.of_nat j) (attempt :: rest))
              /\ token_requests out = 0%nat
              /\ refresh_invocations out = 0%nat
              /\ clients_built out = []).
    { intros r0 [= <- <- <-]. cbn - [Z.pow].
      repeat split; try reflexivity; try lia.
      constructor; [reflexivity|constructor]. }
    cbn [retry_attempts] in Hrun. unfold try_except at 1, invoke at 1 in Hrun.
    destruct (transport env (remote_calls self) m p) as [v|e];
      [exact (Hstop _ Hrun)|].
    destruct e as [status|msg| | | | |]; try exact (Hstop _ Hrun).
    destruct (retryable status); [|exact (Hstop _ Hrun)].
    clear Hstop. revert Hrun. run_monad.
    destruct (retry_attempts env 2 rest m p (count_remote_call self))
      as [[r1 self1] out1] eqn:Hrec.
    intros [= <- <- <-].
    destruct (IH _ _ _ _ Hrec)
      as (Hfinal & Hlen & Hsame & Hsleep & Htok & Hinv & Hbuilt).
    change (calls (EvCall m p :: EvLog INFO (RetryingIn (2 ^ Z.of_nat attempt))
                   :: EvSleep (2 ^ Z.of_nat attempt) :: out1))
      with ((m, p) :: calls out1).
    change (total_sleep (EvCall m p
              :: EvLog INFO (RetryingIn (2 ^ Z.of_nat attempt))
              :: EvSleep (2 ^ Z.of_nat attempt) :: out1))
      with (2 ^ Z.of_nat attempt + total_sleep out1).
    cbn [length map foldr]. rewrite after_calls_S.
    split; [exact Hfinal|]. split; [lia|].
    split; [constructor; [reflexivity|exact Hsame]|].
    split; [lia|]. split; [exact Htok|]. split; [exact Hinv|exact Hbuilt].
Qed.

Lemma api_client_after_calls k self :
  api_client (after_calls k self) = api_client self.
Proof. induction k as [|k IH]; cbn; [reflexivity | exact IH]. Qed.

(** What [fetch_data_one_page] does in every case. *)
Lemma fetch_data_one_page_footprint env endpoint params self r self' out :
  fetch_data_one_page env endpoint params self = (r, self', out) ->
  endpoint_dict self' = endpoint_dict self
  /\ remote_calls self' = (remote_calls self + length (calls out))%nat
  /\ (forall m, endpoint_dict self !! endpoint = Some m ->
        Forall (eq (m, params)) (calls out))
  /\ (length (calls out) <= 11)%nat
  /\ 0 <= total_sleep out <= 1023
  /\ (token_requests out <= 5)%nat
  /\ (refresh_invocations out <= 1)%nat
  /\ (length (clients_built out) <= 1)%nat
  /\ api_client self' = (api_client self + length (clients_built out))%nat.
Proof.
  unfold fetch_data_one_page. run_monad.
  destruct (endpoint_dict self !! endpoint) as [m|] eqn:Hdict.
  2: { intros [= <- <- <-]. cbn.
       repeat split; try reflexivity; try lia. intros m [=]. }
  assert (Hstop : forall r0 log,
    (r0, count_remote_call self, EvCall m params :: map (EvLog ERROR) log)
    = (r, self', out) ->
    endpoint_dict self' = endpoint_dict self
    /\ remote_calls self' = (remote_calls self + length (calls out))%nat
    /\ (forall m', Some m = Some m' -> Forall (eq (m', params)) (calls out))
    /\ (length (calls out) <= 11)%nat
    /\ 0 <= total_sleep out <= 1023
    /\ (token_requests out <= 5)%nat
    /\ (refresh_invocations out <= 1)%nat
    /\ (length (clients_built out) <= 1)%nat
    /\ api_client self' = (api_client self + length (clients_built out))%nat).
  { intros r0 log [= <- <- <-].
    assert (Hlog : calls (map (EvLog ERROR) log) = []
                   /\ total_sleep (map (EvLog ERROR) log) = 0
                   /\ token_requests (map (EvLog ERROR) log) = 0%nat
                   /\ refresh_invocations (map (EvLog ERROR) log) = 0%nat
                   /\ clients_built (map (EvLog ERROR) log) = []).
    { induction log as [|msg log IHlog]; [repeat split; reflexivity|].
      exact IHlog. }
    destruct Hlog as (Hc & Hs & Ht & Hi & Hb).
    change (calls (EvCall m params :: ?l)) with ((m, params) :: calls l).
    change (total_sleep (EvCall m params :: ?l)) with (total_sleep l).
    change (token_requests (EvCall m params :: ?l)) with (token_requests l).
    change (refresh_invocations (EvCall m params :: ?l))
      with (refresh_invocations l).
    change (clients_built (EvCall m params :: ?l)) with (clients_built l).
    rewrite Hc, Hs, Ht, Hi, Hb. cbn.
    repeat split; try lia.
    intros m' [= <-]. constructor; [reflexivity|constructor]. }
  unfold invoke at 1.
  destruct (transport env (remote_calls self) m params) as [v|e].
  { intros Hrun. exact (Hstop (Ret v) [] Hrun). }
  destruct e as [status|msg| | | | |];
    try (intros Hrun;
         match type of Hrun with
         | context [ErrorFetchingData ?e] =>
             exact (Hstop (Raise e) [ErrorFetchingData e] Hrun)
         end).
  destruct (bool_decide (status = 401)).
  - cbn [key secret scopes count_remote_call].
    destruct (_refresh_access_token env (key self) (secret self) (scopes self)
                (count_remote_call self)) as [[r1 self_r] out_r] eqn:Hrefresh.
    destruct (refresh_access_token_footprint _ _ _ _ _ _ _ _ Hrefresh)
      as (Hreq & Hsleep & Hcalls & Hinv & Hbuilt & Hd & Hn & Ha & _).
    cbn [endpoint_dict remote_calls api_client count_remote_call] in Hd, Hn, Ha.
    destruct r1 as [[]|e].
    + unfold new_api_client, _set_api_instances. run_monad.
      rewrite Hd, Hdict. unfold invoke. cbn [fst snd].
      destruct (transport env (remote_calls self_r) m params) as [v|e];
        intros [= <- <- <-];
        change (EvCall m params :: EvLog INFO TokenExpired
                :: out_r ++ EvApiClient (S (api_client self_r))
                   :: [EvCall m params])
          with ([EvCall m params; EvLog INFO TokenExpired]
                ++ out_r ++ [EvApiClient (S (api_client self_r));
                             EvCall m params]);
        unfold clients_built in *;
        rewrite !calls_app, !total_sleep_app, !token_requests_app,
          !refresh_invocations_app, !omap_app, Hcalls, Hinv, Hbuilt;
        cbn; rewrite Hn, Ha; (repeat split; try lia);
        try (intros m' [= <-]; repeat constructor);
        assumption.
    + cbn [fst snd]. intros [= <- <- <-].
      change (EvCall m params :: EvLog INFO TokenExpired :: out_r)
        with ([EvCall m params; EvLog INFO TokenExpired] ++ out_r).
      unfold clients_built in *.
      rewrite !calls_app, !total_sleep_app, !token_requests_app,
        !refresh_invocations_app, !omap_app, Hcalls, Hinv, Hbuilt.
      cbn. rewrite Hn, Ha. repeat split; try lia.
      * assumption.
      * intros m' [= <-]. repeat constructor.
  - destruct (retryable status);
      [|intros Hrun;
        exact (Hstop (Raise (ApiException status))
                 [ApiExceptionLogged (ApiException status)] Hrun)].
    unfold _retry_with_backoff. cbv zeta.
    destruct (retry_attempts env 2 (seq 0 10) m params (count_remote_call self))
      as [[r1 self1] out1] eqn:Hloop.
    destruct (retry_attempts_footprint _ _ _ _ _ _ _ _ Hloop)
      as (Hfinal & Hlen & Hall & Hsleep & Htok & Hinv & Hbuilt).
    intros [= <- <- <-].
    rewrite total_sleep_powers in Hsleep. rewrite length_seq in Hlen.
    change (EvCall m params
            :: EvLog WARNING (RetryingWithBackoff (ApiException status)) :: out1)
      with ([EvCall m params;
             EvLog WARNING (RetryingWithBackoff (ApiException status))] ++ out1).
    unfold clients_built in *.
    rewrite !calls_app, !total_sleep_app, !token_requests_app,
      !refresh_invocations_app, !omap_app, Htok, Hinv, Hbuilt, Hfinal.
    rewrite endpoint_dict_after_calls, remote_calls_after_calls,
      api_client_after_calls.
    cbn in *. repeat split; try lia.
    intros m' [= <-]. constructor; [reflexivity|exact Hall].
Qed.

(** X9.  Whatever the collaborators do, one [fetch_data_one_page] invokes the
    operation at most 11 times, waits at most 1023 time units in all,
    invokes [_refresh_access_token] at most once, asks the provider for a
    token at most 5 times and constructs at most one client. *)
Theorem fetch_page_bounds env endpoint params self :
  let run := fetch_data_one_page env endpoint params self in
  (length (calls (output run)) <= 11)%nat
  /\ 0 <= total_sleep (output run) <= 1023
  /\ (refresh_invocations (output run) <= 1)%nat
  /\ (token_requests (output run) <= 5)%nat
  /\ (length (clients_built (output run)) <= 1)%nat.
Proof.
  intros run. subst run.
  destruct (fetch_data_one_page env endpoint params self)
    as [[r self'] out] eqn:Hrun.
  destruct (fetch_data_one_page_footprint _ _ _ _ _ _ _ Hrun)
    as (_ & _ & _ & Hcalls & Hsleep & Htok & Hinv & Hbuilt & _).
  unfold output. cbn [snd]. repeat split; try assumption; lia.
Qed.

(** X10.  [fetch_data_one_page] never changes [endpoint_dict], and every call it
    makes is a call of the method registered for the endpoint, with the
    keyword arguments it was given; the counter of calls advances by the
    number of calls made. *)
Theorem fetch_page_keeps_endpoint_dict env endpoint params self m :
  endpoint_dict self !! endpoint = Some m ->
  let run := fetch_data_one_page env endpoint params self in
  endpoint_dict (final run) = endpoint_dict self
  /\ Forall (eq (m, params)) (calls (output run))
  /\ remote_calls (final run)
     = (remote_calls self + length (calls (output run)))%nat.
Proof.
  intros Hdict run. subst run.
  destruct (fetch_data_one_page env endpoint params self)
    as [[r self'] out] eqn:Hrun.
  destruct (fetch_data_one_page_footprint _ _ _ _ _ _ _ Hrun)
    as (Hd & Hn & Hall & _).
  unfold final, output. cbn [fst snd].
  split; [exact Hd|]. split; [exact (Hall m Hdict)|exact Hn].
Qed.

(** ** The constructor *)

(** [__init__] is the token refresh followed, when it returns, by the
    construction of the client, of the API instances and of the dictionary. *)
Lemma init_run env k s sc self0 r self_r out_r :
  _refresh_access_token env k s sc
    (new_configuration (set_credentials k s sc self0)) = (r, self_r, out_r) ->
  __init__ env k s sc self0
  = match r with
    | Ret _ =>
        let client := S (api_client self_r) in
        (Ret tt,
         set_endpoint_dict
           (<[CURRENCY_USD_QUOTE :=
                Method "currency_usd_indirect_quotation_get" client]>
            (<[ECONOMIC_DATA_LIST :=
                 Method "economic_data_indicator_list_get" client]>
             (<[ECONOMIC_DATA_VALUES :=
                  Method "economic_data_indicator_name_get" client]> ∅)))
           (set_api_instances client (set_api_client client self_r)),
         out_r ++ [EvApiClient client])
    | Raise e => (Raise e, self_r, out_r)
    end.
Proof.
  intros Hrefresh.
  unfold __init__, refresh_own_token, new_api_client, _set_api_instances.
  run_monad. rewrite Hrefresh.
  destruct r as [[]|e]; [|reflexivity].
  cbn. reflexivity.
Qed.

(** What a run of the constructor leaves behind. *)
Lemma init_footprint env k s sc self0 r self out :
  __init__ env k s sc self0 = (r, self, out) ->
  match r with
  | Ret _ =>
      (forall endpoint,
         exists m, endpoint_dict self !! endpoint = Some m
                   /\ bound_client m = api_client self)
      /\ key self = k /\ secret self = s /\ scopes self = sc
      /\ is_Some (access_token self)
      /\ clients_built out = [api_client self]
      /\ calls out = []
  | Raise e =>
      result (_refresh_access_token env k s sc
                (new_configuration (set_credentials k s sc self0)))
      = Raise e
      /\ clients_built out = []
      /\ calls out = []
      /\ endpoint_dict self = endpoint_dict self0
  end.
Proof.
  destruct (_refresh_access_token env k s sc
              (new_configuration (set_credentials k s sc self0)))
    as [[r1 s1] o1] eqn:Hrefresh.
  rewrite (init_run _ _ _ _ _ _ _ _ Hrefresh).
  destruct (refresh_access_token_footprint _ _ _ _ _ _ _ _ Hrefresh)
    as (_ & _ & Hcalls & _ & Hbuilt & Hd & _ & _ & _ & (Hk & Hs & Hsc) & Htoken).
  cbn [key secret scopes endpoint_dict new_configuration set_credentials]
    in Hk, Hs, Hsc, Hd.
  destruct r1 as [[]|e]; cbv zeta; intros [= <- <- <-].
  - split.
    { intros endpoint. cbn [endpoint_dict set_endpoint_dict].
      destruct endpoint; eexists; split;
        [vm_compute; reflexivity | reflexivity
        |vm_compute; reflexivity | reflexivity
        |vm_compute; reflexivity | reflexivity]. }
    unfold clients_built in *.
    rewrite calls_app, omap_app, Hcalls, Hbuilt.
    cbn. repeat split; try assumption; reflexivity.
  - unfold result. cbn [fst]. repeat split; try assumption; reflexivity.
Qed.

(** X2.  The constructor returns exactly when its token refresh returns and
    raises exactly when its token refresh raises, with the same exception.
    A constructor that returns leaves an instance that holds the credentials
    it was given and a token, and whose dictionary registers every member of
    [EndpointType] with a method bound to the client just constructed; it
    has built exactly one client and invoked no operation.  A constructor
    that raises has built no client and registered nothing. *)
Theorem constructor_registers_every_member env k s sc self0 :
  let run := __init__ env k s sc self0 in
  let refresh :=
    _refresh_access_token env k s sc
      (new_configuration (set_credentials k s sc self0)) in
  result run = result refresh
  /\ (forall e, result run = Raise e <-> result refresh = Raise e)
  /\ (result run = Ret tt <-> result refresh = Ret tt)
  /\ token_requests (output run) = token_requests (output refresh)
  /\ sleeps (output run) = sleeps (output refresh)
  /\ match result run with
     | Ret _ =>
         (forall endpoint,
            exists m, endpoint_dict (final run) !! endpoint = Some m
                      /\ bound_client m = api_client (final run))
         /\ key (final run) = k /\ secret (final run) = s
         /\ scopes (final run) = sc
         /\ is_Some (access_token (final run))
         /\ clients_built (output run) = [api_client (final run)]
         /\ calls (output run) = []
     | Raise e =>
         result refresh = Raise e
         /\ clients_built (output run) = []
         /\ calls (output run) = []
         /\ endpoint_dict (final run) = endpoint_dict self0
     end.
Proof.
  intros run refresh. subst run refresh.
  destruct (_refresh_access_token env k s sc
              (new_configuration (set_credentials k s sc self0)))
    as [[r1 s1] o1] eqn:Hrefresh.
  pose proof (init_run _ _ _ _ _ _ _ _ Hrefresh) as Hinit.
  destruct (__init__ env k s sc self0) as [[r self] out] eqn:Hrun.
  pose proof (init_footprint _ _ _ _ _ _ _ _ Hrun) as Hfoot.
  rewrite Hrefresh in Hfoot.
  unfold result, final, output in *. cbn [fst snd] in *.
  assert (Hresult : r = r1).
  { destruct r1 as [[]|e1]; cbv zeta in Hinit; congruence. }
  assert (Hout : token_requests out = token_requests o1
                 /\ sleeps out = sleeps o1).
  { destruct r1 as [[]|e1]; cbv zeta in Hinit;
      injection Hinit as _ _ ->; [|split; reflexivity].
    unfold token_requests, sleeps. rewrite omap_app, List.filter_app.
    cbn. rewrite !app_nil_r. split; reflexivity. }
  destruct Hout as [Htokens Hsleeps].
  split; [exact Hresult|]. subst r.
  split; [intros e; split; intros Hr; exact Hr|].
  split; [split; intros Hr; exact Hr|].
  split; [exact Htokens|].
  split; [exact Hsleeps|].
  exact Hfoot.
Qed.

(** X3.  The methods registered at construction outlive the client they are
    bound to.  On a constructed instance, every call that
    [fetch_data_one_page] makes goes through a method bound to the client of
    the construction, also the call that follows a token refresh; when the
    fetch has constructed a new client, [self.api_client] is that new
    client, and the dictionary still holds the methods of the old one. *)
Theorem calls_stay_on_the_constructed_client env k s sc self0 self out
    env' endpoint params :
  __init__ env k s sc self0 = (Ret tt, self, out) ->
  let run := fetch_data_one_page env' endpoint params self in
  Forall (fun call => bound_client call.1 = api_client self)
         (calls (output run))
  /\ (forall endpoint',
        exists m, endpoint_dict (final run) !! endpoint' = Some m
                  /\ bound_client m = api_client self)
  /\ (clients_built (output run) <> [] ->
      api_client (final run) = S (api_client self)).
Proof.
  intros Hinit run. subst run.
  destruct (init_footprint _ _ _ _ _ _ _ _ Hinit) as (Hreg & _).
  destruct (fetch_data_one_page env' endpoint params self)
    as [[r self'] out'] eqn:Hrun.
  destruct (fetch_data_one_page_footprint _ _ _ _ _ _ _ Hrun)
    as (Hd & _ & Hall & _ & _ & _ & _ & Hbuilt & Hclient).
  unfold final, output. cbn [fst snd].
  destruct (Hreg endpoint) as (m & Hm & Hbound).
  split; [|split].
  - eapply Forall_impl; [exact (Hall m Hm)|].
    intros call <-. exact Hbound.
  - intros endpoint'. rewrite Hd. apply Hreg.
  - intros Hne. rewrite Hclient.
    destruct (clients_built out') as [|c [|c' l]]; cbn in *;
      [congruence | lia | lia].
Qed.

(** ** More on pagination *)

(** The run equation of [fetch_data_one_page] for a first call that settles
    the fetch. *)
Lemma fetch_data_one_page_settled env self endpoint params m r :
  endpoint_dict self !! endpoint = Some m ->
  transport env (remote_calls self) m params = r ->
  match r with
  | Ret _ => True
  | Raise e => settled e
  end ->
  exists log,
    fetch_data_one_page env endpoint params self
    = (r, count_remote_call self, EvCall m params :: map (EvLog ERROR) log).
Proof.
  intros Hdict Hcall Hsettled.
  unfold fetch_data_one_page. run_monad. rewrite Hdict.
  unfold invoke at 1. rewrite Hcall.
  destruct r as [response|e]; [exists []; reflexivity|].
  destruct e as [status|msg| | | | |];
    try (match goal with
         | |- context [ErrorFetchingData ?e] =>
             exists [ErrorFetchingData e]; reflexivity
         end).
  destruct Hsettled as (Hnot401 & Hretry).
  rewrite bool_decide_eq_false_2 by exact Hnot401. rewrite Hretry.
  exists [ApiExceptionLogged (ApiException status)]. reflexivity.
Qed.

Lemma calls_error_log log : calls (map (EvLog ERROR) log) = [].
Proof. induction log as [|msg log IH]; [reflexivity|exact IH]. Qed.

(** [fetch_one_data_bridges_page] once the fetch is over. *)
Lemma fetch_one_run env endpoint_type params self r self' out :
  fetch_data_one_page env endpoint_type params self = (r, self', out) ->
  fetch_one_data_bridges_page env endpoint_type params self
  = match r with
    | Ret res =>
        (page_table res, self',
         out ++ EvLog INFO (FetchingPage (value endpoint_type) params)
             :: (if hasattr res "items" then []
                 else [EvLog WARNING NoResponseData]))
    | Raise e => (Raise e, self', out)
    end.
Proof.
  intros Hfetch. unfold fetch_one_data_bridges_page, page_table. run_monad.
  rewrite Hfetch. destruct r as [res|e]; [|reflexivity].
  destruct (hasattr res "items"); cbn; [|reflexivity].
  destruct (attribute res "items") as [items|e]; cbn; [|reflexivity].
  destruct (normalize_items items) as [normalized|e]; cbn; [|reflexivity].
  destruct (pd_DataFrame normalized); reflexivity.
Qed.

Lemma pd_DataFrame_records (objs : list (gmap string pyval)) :
  pd_DataFrame (PList (PDict <$> objs)) = Ret (PDict <$> objs).
Proof.
  assert (Hall : forall l : list (gmap string pyval),
            forallb is_dict (PDict <$> l) = true).
  { induction l as [|d l IH]; [reflexivity|exact IH]. }
  destruct objs as [|attrs objs]; [reflexivity|].
  specialize (Hall (attrs :: objs)).
  change (pd_DataFrame (PList (PDict <$> attrs :: objs)))
    with (if forallb is_dict (PDict <$> attrs :: objs)
          then Ret (PDict <$> attrs :: objs) else Raise TypeError).
  rewrite Hall. reflexivity.
Qed.

Lemma pd_DataFrame_scalars (items : list pyval) :
  Forall (fun item => scalar item = true) items ->
  pd_DataFrame (PList items) = Ret items.
Proof.
  intros Hscalar. destruct Hscalar as [|first rest Hfirst _]; [reflexivity|].
  destruct first; try discriminate Hfirst; reflexivity.
Qed.

Lemma scalars_are_plain (items : list pyval) :
  Forall (fun item => scalar item = true) items ->
  Forall (fun item => has__dict__ item = false) items.
Proof.
  intros Hscalar. eapply Forall_impl; [exact Hscalar|].
  intros item Hitem.
  destruct item; try discriminate Hitem; reflexivity.
Qed.

(** X14.  The table of one page.  A list of instances gives a row per item,
    the row of an instance being its attribute dictionary, and a list of
    scalars a row per scalar; a list that starts with an instance and holds
    an element without [__dict__] makes the call raise [AttributeError].  A
    result without [items], as [None] is, gives the empty table with a
    warning in the log.  A dictionary has [items], its method, of which no
    table can be made: the call raises [ValueError].  And the exception of
    the fetch is raised before anything is logged about the page. *)
Theorem fetch_one_page_rows env endpoint_type params self r self' out :
  fetch_data_one_page env endpoint_type params self = (r, self', out) ->
  let run := fetch_one_data_bridges_page env endpoint_type params self in
  final run = self'
  /\ match r with
     | Ret res =>
         (forall objs : list (gmap string pyval),
            getattr res "items" = Some (PList (PObject <$> objs)) ->
            result run = Ret (PDict <$> objs))
         /\ (forall items,
               getattr res "items" = Some (PList items) ->
               Forall (fun item => scalar item = true) items ->
               result run = Ret items)
         /\ (forall attrs rest,
               getattr res "items" = Some (PList (PObject attrs :: rest)) ->
               Exists (fun item => has__dict__ item = false) rest ->
               result run = Raise AttributeError)
         /\ (getattr res "items" = None ->
             result run = Ret pd_DataFrame_empty
             /\ last (output run) = Some (EvLog WARNING NoResponseData))
         /\ (forall d, res = PDict d -> result run = Raise ValueError)
     | Raise e => result run = Raise e /\ output run = out
     end.
Proof.
  intros Hfetch run. subst run. rewrite (fetch_one_run _ _ _ _ _ _ _ Hfetch).
  destruct r as [res|e]; [|repeat split; reflexivity].
  split; [reflexivity|]. unfold result, output. cbn [fst snd].
  unfold page_table, hasattr, attribute.
  split; [|split; [|split; [|split]]].
  - intros objs ->.
    destruct objs as [|attrs objs]; [reflexivity|].
    unfold normalize_items.
    change (flattens (PList (PObject <$> attrs :: objs))) with true.
    cbv iota. rewrite dicts_of_objects. apply pd_DataFrame_records.
  - intros items -> Hscalar.
    rewrite normalize_items_plain by (apply scalars_are_plain; exact Hscalar).
    apply pd_DataFrame_scalars. exact Hscalar.
  - intros attrs rest -> Hex.
    destruct (normalize_items_of_instance attrs rest)
      as [(objs & -> & _)|(_ & ->)]; [|reflexivity].
    exfalso. clear -Hex. induction objs as [|d objs IH].
    + inversion Hex.
    + inversion Hex as [? ? Hhead|? ? Htail]; [discriminate Hhead|].
      exact (IH Htail).
  - intros ->. split; [reflexivity|].
    change (EvLog INFO (FetchingPage (value endpoint_type) params)
            :: [EvLog WARNING NoResponseData])
      with ([EvLog INFO (FetchingPage (value endpoint_type) params)]
            ++ [EvLog WARNING NoResponseData]).
    rewrite app_assoc. apply last_snoc.
  - intros d ->. reflexivity.
Qed.

(** The pool when every task is settled by its first call, the answer to a
    task depending on its keyword arguments only. *)
Lemma run_pool_settled env endpoint_type m
    (page_params : Z -> gmap string pyval) (answer : Z -> Result pyval) pages :
  forall self,
    endpoint_dict self !! endpoint_type = Some m ->
    (forall i k, In k pages -> transport env i m (page_params k) = answer k) ->
    (forall k, In k pages ->
       match answer k with
       | Ret _ => True
       | Raise e => settled e
       end) ->
    exists out,
      run_pool env endpoint_type (map page_params pages) self
      = (Ret (map (fun k => match answer k with
                            | Ret res => page_table res
                            | Raise e => Raise e
                            end) pages),
         after_calls (length pages) self, out)
      /\ calls out = map (fun k => (m, page_params k)) pages.
Proof.
  induction pages as [|k pages IH]; intros self Hdict Hanswer Hsettled.
  - exists []. split; reflexivity.
  - destruct (fetch_data_one_page_settled env self endpoint_type
                (page_params k) m (answer k) Hdict)
      as (log & Hfetch).
    { apply Hanswer. left. reflexivity. }
    { apply Hsettled. left. reflexivity. }
    destruct (IH (count_remote_call self)) as (out & Hrest & Hcalls).
    { exact Hdict. }
    { intros i k' Hin. apply Hanswer. right. exact Hin. }
    { intros k' Hin. apply Hsettled. right. exact Hin. }
    cbn [map run_pool length]. rewrite after_calls_S.
    unfold mbind at 1, M_bind at 1, bind at 1, capture at 1.
    rewrite (fetch_one_run _ _ _ _ _ _ _ Hfetch).
    unfold mbind at 1, M_bind at 1, bind at 1.
    destruct (answer k) as [res|e]; rewrite Hrest; cbn;
      eexists; (split; [reflexivity|]);
      change (calls (EvCall m (page_params k) :: ?l))
        with ((m, page_params k) :: calls l);
      rewrite !calls_app, calls_error_log, Hcalls.
    + destruct (hasattr res "items"); cbn; rewrite app_nil_r; reflexivity.
    + cbn. rewrite app_nil_r. reflexivity.
Qed.

Lemma collect_tables (tables : list DataFrame) :
  forall all_data_df self,
    collect all_data_df (map Ret tables) self
    = (Ret (all_data_df ++ concat tables), self, []).
Proof.
  induction tables as [|table tables IH]; intros all_data_df self.
  - cbn. rewrite app_nil_r. reflexivity.
  - cbn [map collect concat]. run_monad. rewrite IH.
    unfold pd_concat. rewrite app_assoc. reflexivity.
Qed.

Lemma collect_raises (completed : list (Result DataFrame)) e :
  forall all_data_df self,
    In (Raise e) completed ->
    (forall r, In r completed -> r = Raise e \/ exists table, r = Ret table) ->
    collect all_data_df completed self = (Raise e, self, []).
Proof.
  induction completed as [|future rest IH]; intros all_data_df self Hin Hall.
  - destruct Hin.
  - cbn [collect]. run_monad.
    destruct (Hall future) as [->|(table & ->)]; [left; reflexivity| |].
    + reflexivity.
    + destruct Hin as [Habs|Hin]; [discriminate|].
      rewrite (IH (pd_concat all_data_df table) self Hin); [reflexivity|].
      intros r Hr. apply Hall. right. exact Hr.
Qed.

(** The pages that a page count [n] spans. *)
Lemma fetch_all_after_probe env endpoint_type params self n self' out
    completed self'' out' :
  get_total_pages env endpoint_type params self = (Ret (PInt n), self', out) ->
  run_pool env endpoint_type
    (map (fun k => <["page" := PInt k]> (<["page" := PInt 1]> params))
         (map (fun i => 1 + Z.of_nat i) (seq 0 (Z.to_nat n)))) self'
  = (Ret completed, self'', out') ->
  fetch_all_data_bridges_data env endpoint_type params self
  = match collect pd_DataFrame_empty completed self'' with
    | (r, self3, out3) =>
        (r, self3,
         out ++ map (fun k => EvSubmit endpoint_type
                                (<["page" := PInt k]> (<["page" := PInt 1]> params)))
                    (map (fun i => 1 + Z.of_nat i) (seq 0 (Z.to_nat n)))
             ++ out' ++ out3)
    end.
Proof.
  intros Hprobe Hpool.
  rewrite (fetch_all_run _ _ _ _ _ _ _ Hprobe).
  unfold mbind at 1, M_bind at 1, bind at 1. rewrite submit_pages_run.
  unfold mbind at 1, M_bind at 1, bind at 1. rewrite Hpool.
  destruct (collect pd_DataFrame_empty completed self'') as [[r self3] out3].
  reflexivity.
Qed.

(** X17.  One page that fails, at its first call and for good, makes
    [fetch_all_data_bridges_data] raise the exception of that page: no
    partial table is returned.  The tasks of the other pages have run all
    the same, those submitted after the failing one included. *)
Theorem fetch_all_aborts_on_failed_page env endpoint_type params self m probe
    total_items page_size (answer : Z -> Result pyval) failing e :
  endpoint_dict self !! endpoint_type = Some m ->
  transport env (remote_calls self) m params = Ret probe ->
  getattr probe "total_items" = Some (PInt total_items) ->
  params !! "page_size" = Some (PInt page_size)
  \/ (params !! "page_size" = None /\ page_size = 1000) ->
  0 < page_size ->
  let pages :=
    map (fun i => 1 + Z.of_nat i)
        (seq 0 (Z.to_nat ((total_items + page_size - 1) / page_size))) in
  let page_params k := <["page" := PInt k]> (<["page" := PInt 1]> params) in
  (forall i k, In k pages -> transport env i m (page_params k) = answer k) ->
  In failing pages ->
  answer failing = Raise e ->
  settled e ->
  (forall k, In k pages -> k <> failing ->
     exists res table, answer k = Ret res /\ page_table res = Ret table) ->
  exists out,
    fetch_all_data_bridges_data env endpoint_type params self
    = (Raise e, after_calls (S (length pages)) self, out)
    /\ calls out = (m, params) :: map (fun k => (m, page_params k)) pages.
Proof.
  intros Hdict Hprobe Htotal Hsize Hpos pages page_params Hanswer Hin Hfail
    Hsettled Hothers.
  destruct (fetch_data_one_page_settled env self endpoint_type params m
              (Ret probe) Hdict Hprobe I) as (log & Hfetch).
  pose proof (get_total_pages_int env endpoint_type params self probe
                (count_remote_call self) _ total_items page_size
                Hfetch Htotal) as Hpages.
  specialize (Hpages ltac:(destruct Hsize as [->|[-> ->]]; reflexivity) Hpos).
  destruct (run_pool_settled env endpoint_type m page_params answer pages
              (count_remote_call self))
    as (out' & Hpool & Hcalls).
  { exact Hdict. }
  { exact Hanswer. }
  { intros k Hk. destruct (Z.eq_dec k failing) as [->|Hne].
    - rewrite Hfail. exact Hsettled.
    - destruct (Hothers k Hk Hne) as (res & table & -> & _). exact I. }
  eexists. split.
  - rewrite (fetch_all_after_probe _ _ _ _ _ _ _ _ _ _ Hpages Hpool).
    rewrite (collect_raises _ e).
    + rewrite <- after_calls_S. reflexivity.
    + apply in_map_iff. exists failing. rewrite Hfail. split; [reflexivity|exact Hin].
    + intros r Hr. apply in_map_iff in Hr as (k & <- & Hk).
      destruct (Z.eq_dec k failing) as [->|Hne].
      * left. rewrite Hfail. reflexivity.
      * right. destruct (Hothers k Hk Hne) as (res & table & -> & ->).
        exists table. reflexivity.
  - rewrite !calls_app.
    change (calls (EvCall m params :: map (EvLog ERROR) log))
      with ((m, params) :: calls (map (EvLog ERROR) log)).
    rewrite calls_error_log, Hcalls.
    assert (Hsub : forall l : list Z,
              calls (map (fun k => EvSubmit endpoint_type (page_params k)) l) = []).
    { induction l as [|k l IHl]; [reflexivity|exact IHl]. }
    cbn. rewrite Hsub, app_nil_r. reflexivity.
Qed.

Lemma fetch_all_probe_raises env endpoint_type params self e self' out :
  get_total_pages env endpoint_type params self = (Raise e, self', out) ->
  fetch_all_data_bridges_data env endpoint_type params self
  = (Raise e, self', out).
Proof.
  intros Hprobe. unfold fetch_all_data_bridges_data.
  unfold mbind at 1, M_bind at 1, bind at 1. rewrite Hprobe. reflexivity.
Qed.

(** X12.  An exception of the probe is the exception of the whole: when the fetch
    of the probed page raises, [get_total_pages] and
    [fetch_all_data_bridges_data] raise the same exception, with nothing
    done after the fetch. *)
Theorem fetch_all_propagates_probe_failure env endpoint_type params self e
    self' out :
  fetch_data_one_page env endpoint_type params self = (Raise e, self', out) ->
  get_total_pages env endpoint_type params self = (Raise e, self', out)
  /\ fetch_all_data_bridges_data env endpoint_type params self
     = (Raise e, self', out).
Proof.
  intros Hfetch.
  assert (Hprobe : get_total_pages env endpoint_type params self
                   = (Raise e, self', out)).
  { unfold get_total_pages. run_monad. rewrite Hfetch. reflexivity. }
  split; [exact Hprobe|]. apply fetch_all_probe_raises. exact Hprobe.
Qed.

(** X11.  A [page_size] is not checked before it is used: zero makes the
    page count raise [ZeroDivisionError], a value that is no number (a
    string, [None], a list, a dictionary, an object) makes it raise
    [TypeError], in both cases after the probe has been fetched, and
    [fetch_all_data_bridges_data] raises the same. *)
Theorem get_total_pages_rejects_page_size env endpoint_type params self res
    self' out total_items :
  fetch_data_one_page env endpoint_type params self = (Ret res, self', out) ->
  getattr res "total_items" = Some (PInt total_items) ->
  (params !! "page_size" = Some (PInt 0) ->
   get_total_pages env endpoint_type params self
   = (Raise ZeroDivisionError, self', out)
   /\ fetch_all_data_bridges_data env endpoint_type params self
      = (Raise ZeroDivisionError, self', out))
  /\ (forall v,
        params !! "page_size" = Some v ->
        (forall z, v <> PInt z) ->
        get_total_pages env endpoint_type params self
        = (Raise TypeError, self', out)
        /\ fetch_all_data_bridges_data env endpoint_type params self
           = (Raise TypeError, self', out)).
Proof.
  intros Hfetch Htotal.
  pose proof (get_total_pages_run _ _ _ _ _ _ _ Hfetch) as Hrun.
  rewrite Htotal in Hrun. cbv zeta in Hrun.
  split.
  - intros Hsize. rewrite Hsize in Hrun. cbn in Hrun.
    split; [exact Hrun|]. apply fetch_all_probe_raises. exact Hrun.
  - intros v Hsize Hnot. rewrite Hsize in Hrun.
    assert (Hadd : py_add (PInt total_items) (default (PInt CURRENT_MAX_DATA_BRIDGES_PAGE_SIZE) (Some v))
                   = Raise TypeError).
    { cbn. destruct v; try reflexivity. exfalso. eapply Hnot. reflexivity. }
    rewrite Hadd in Hrun.
    split; [exact Hrun|]. apply fetch_all_probe_raises. exact Hrun.
Qed.

(** X13.  For a member of [EndpointType] that [endpoint_dict] does not
    register, nothing is raised: [get_total_pages] takes the [None] of the
    fetch for a single page, and [fetch_all_data_bridges_data] submits the
    task of page 1 and returns the empty table, having invoked no operation
    at all.  Such an instance is never the one a constructor has just
    returned, which registers every member: the entry has been removed from
    the dictionary since.  An identifier that is no member of [EndpointType]
    is outside this statement. *)
Theorem fetch_all_of_unregistered_endpoint env (endpoint_type : EndpointType)
    params self :
  endpoint_dict self !! endpoint_type = None ->
  get_total_pages env endpoint_type params self
  = (Ret (PInt 1), self, [EvLog ERROR (InvalidEndpoint endpoint_type)])
  /\ fetch_all_data_bridges_data env endpoint_type params self
     = (Ret pd_DataFrame_empty, self,
        [EvLog ERROR (InvalidEndpoint endpoint_type);
         EvSubmit endpoint_type (<["page" := PInt 1]> (<["page" := PInt 1]> params));
         EvLog ERROR (InvalidEndpoint endpoint_type);
         EvLog INFO (FetchingPage (value endpoint_type)
                       (<["page" := PInt 1]> (<["page" := PInt 1]> params)));
         EvLog WARNING NoResponseData])
  /\ (forall env0 k s sc self0,
        result (__init__ env0 k s sc self0) = Ret tt ->
        final (__init__ env0 k s sc self0) <> self).
Proof.
  intros Hdict.
  assert (Hfetch : forall p,
            fetch_data_one_page env endpoint_type p self
            = (Ret PNone, self, [EvLog ERROR (InvalidEndpoint endpoint_type)])).
  { intros p. unfold fetch_data_one_page. run_monad. rewrite Hdict.
    reflexivity. }
  assert (Hprobe : get_total_pages env endpoint_type params self
            = (Ret (PInt 1), self, [EvLog ERROR (InvalidEndpoint endpoint_type)])).
  { rewrite (get_total_pages_run _ _ _ _ _ _ _ (Hfetch params)). reflexivity. }
  split; [exact Hprobe|]. split.
  - erewrite fetch_all_after_probe; [|exact Hprobe|].
    2: { change (Z.to_nat 1) with 1%nat. cbn [seq map run_pool].
         unfold mbind at 1, M_bind at 1, bind at 1, capture at 1.
         rewrite (fetch_one_run _ _ _ _ _ _ _ (Hfetch _)).
         cbn. reflexivity. }
    reflexivity.
  - intros env0 k s sc self0 Hresult Hfinal.
    destruct (__init__ env0 k s sc self0) as [[r self1] out] eqn:Hrun.
    pose proof (init_footprint _ _ _ _ _ _ _ _ Hrun) as Hfoot.
    unfold result, final in *. cbn [fst snd] in *. subst r self1.
    destruct Hfoot as (Hregistered & _).
    destruct (Hregistered endpoint_type) as (m & Hm & _).
    rewrite Hdict in Hm. discriminate Hm.
Qed.

(** ** The order of completion *)

Lemma concat_permutation (tables tables' : list DataFrame) :
  Permutation tables tables' -> Permutation (concat tables) (concat tables').
Proof.
  induction 1 as [|t l l' _ IH|t t' l|l l' l'' _ IH1 _ IH2]; cbn [concat].
  - constructor.
  - apply Permutation_app_head. exact IH.
  - rewrite !app_assoc. apply Permutation_app_tail, Permutation_app_comm.
  - etransitivity; eassumption.
Qed.

Lemma list_sum_permutation (l l' : list nat) :
  Permutation l l' -> list_sum l = list_sum l'.
Proof.
  induction 1 as [|x l l' _ IH|x y l|l l' l'' _ IH1 _ IH2];
    unfold list_sum in *; cbn [fold_right] in *; lia.
Qed.

Lemma length_concat_tables (tables : list DataFrame) :
  length (concat tables) = list_sum (map (fun t => length t) tables).
Proof.
  induction tables as [|t tables IH]; [reflexivity|].
  cbn [concat map list_sum foldr]. rewrite length_app, IH. reflexivity.
Qed.

(** [fetch_all_as_completed] once the page count is known. *)
Lemma fetch_all_as_completed_after_probe env as_completed endpoint_type params
    self n self' out completed self'' out' :
  get_total_pages env endpoint_type params self = (Ret (PInt n), self', out) ->
  run_pool env endpoint_type
    (map (fun k => <["page" := PInt k]> (<["page" := PInt 1]> params))
         (map (fun i => 1 + Z.of_nat i) (seq 0 (Z.to_nat n)))) self'
  = (Ret completed, self'', out') ->
  fetch_all_as_completed env as_completed endpoint_type params self
  = match collect pd_DataFrame_empty (as_completed completed) self'' with
    | (r, self3, out3) =>
        (r, self3,
         out ++ map (fun k => EvSubmit endpoint_type
                                (<["page" := PInt k]> (<["page" := PInt 1]> params)))
                    (map (fun i => 1 + Z.of_nat i) (seq 0 (Z.to_nat n)))
             ++ out' ++ out3)
    end.
Proof.
  intros Hprobe Hpool. unfold fetch_all_as_completed.
  unfold mbind at 1, M_bind at 1, bind at 1. rewrite Hprobe.
  rewrite page_never_in_list_of_params. cbn [negb].
  unfold subscript. rewrite lookup_insert_eq.
  unfold mbind at 1, M_bind at 1, bind at 1, lift at 1.
  unfold mbind at 1, M_bind at 1, bind at 1, lift at 1.
  cbn [py_add].
  unfold mbind at 1, M_bind at 1, bind at 1, lift at 1.
  cbn [py_range].
  replace (n + 1 - 1) with n by lia.
  cbn [app].
  unfold mbind at 1, M_bind at 1, bind at 1. rewrite submit_pages_run.
  unfold mbind at 1, M_bind at 1, bind at 1. rewrite Hpool.
  destruct (collect pd_DataFrame_empty (as_completed completed) self'')
    as [[r self3] out3].
  reflexivity.
Qed.

(** X16.  [fetch_all_data_bridges_data] over pages that all answer at the
    first call.  The loop takes the futures as [as_completed] yields them,
    which is the order in which the tasks finish and can be any order: so for
    every order of completion the table returned is the tables of pages 1 to
    [n] one after the other in that order, each table holding the rows of its
    page in the order of the items.  The rows are those of the pages up to
    the order of the pages, and their number is the sum of the item counts of
    the pages.  The operation has been invoked once for the probe, first, and
    once for each page, the page of the probe included.
    [fetch_all_data_bridges_data] as modelled is the order of submission. *)
Theorem fetch_all_concatenates_pages env as_completed endpoint_type params
    self m probe total_items page_size (answer : Z -> pyval)
    (book : Z -> list (gmap string pyval)) :
  (forall completed : list (Result DataFrame),
     Permutation (as_completed completed) completed) ->
  endpoint_dict self !! endpoint_type = Some m ->
  transport env (remote_calls self) m params = Ret probe ->
  getattr probe "total_items" = Some (PInt total_items) ->
  params !! "page_size" = Some (PInt page_size)
  \/ (params !! "page_size" = None /\ page_size = 1000) ->
  0 < page_size ->
  let pages :=
    map (fun i => 1 + Z.of_nat i)
        (seq 0 (Z.to_nat ((total_items + page_size - 1) / page_size))) in
  let page_params k := <["page" := PInt k]> (<["page" := PInt 1]> params) in
  (forall i k, In k pages ->
     transport env i m (page_params k) = Ret (answer k)) ->
  (forall k, In k pages ->
     getattr (answer k) "items" = Some (PList (PObject <$> book k))) ->
  exists tables out page_calls,
    as_completed (map Ret (map (fun k => PDict <$> book k) pages))
    = map Ret tables
    /\ Permutation tables (map (fun k => PDict <$> book k) pages)
    /\ fetch_all_as_completed env as_completed endpoint_type params self
       = (Ret (concat tables), after_calls (S (length pages)) self, out)
    /\ Permutation (concat tables)
         (concat (map (fun k => PDict <$> book k) pages))
    /\ length (concat tables)
       = list_sum (map (fun k => length (book k)) pages)
    /\ calls out = (m, params) :: page_calls
    /\ Permutation page_calls (map (fun k => (m, page_params k)) pages)
    /\ fetch_all_as_completed env (fun completed => completed)
         endpoint_type params
       = fetch_all_data_bridges_data env endpoint_type params.
Proof.
  intros Horder Hdict Hprobe Htotal Hsize Hpos pages page_params Hanswer
    Hitems.
  destruct (fetch_data_one_page_settled env self endpoint_type params m
              (Ret probe) Hdict Hprobe I) as (log & Hfetch).
  pose proof (get_total_pages_int env endpoint_type params self probe
                (count_remote_call self) _ total_items page_size
                Hfetch Htotal) as Hpages.
  specialize (Hpages ltac:(destruct Hsize as [->|[-> ->]]; reflexivity) Hpos).
  destruct (run_pool_settled env endpoint_type m page_params
              (fun k => Ret (answer k)) pages (count_remote_call self))
    as (out' & Hpool & Hcalls).
  { exact Hdict. }
  { exact Hanswer. }
  { intros k _. exact I. }
  assert (Htables :
    map (fun k => page_table (answer k)) pages
    = map Ret (map (fun k => PDict <$> book k) pages)).
  { rewrite map_map. apply map_ext_in. intros k Hin.
    unfold page_table, hasattr, attribute. rewrite (Hitems k Hin).
    destruct (book k) as [|attrs objs]; [reflexivity|].
    unfold normalize_items.
    change (flattens (PList (PObject <$> attrs :: objs))) with true.
    cbv iota. rewrite dicts_of_objects.
    rewrite pd_DataFrame_records. reflexivity. }
  rewrite Htables in Hpool.
  destruct (Permutation_map_inv _ _
              (Horder (map Ret (map (fun k => PDict <$> book k) pages))))
    as (tables & Hcompleted & Hperm).
  symmetry in Hperm.
  exists tables. eexists. exists (map (fun k => (m, page_params k)) pages).
  split; [exact Hcompleted|].
  split; [exact Hperm|].
  split; [|split; [|split; [|split; [|split]]]].
  - rewrite (fetch_all_as_completed_after_probe _ _ _ _ _ _ _ _ _ _ _
               Hpages Hpool).
    rewrite Hcompleted, collect_tables. rewrite <- after_calls_S.
    reflexivity.
  - apply concat_permutation. exact Hperm.
  - etransitivity; [apply length_concat_tables|].
    etransitivity;
      [apply list_sum_permutation, Permutation_map; exact Hperm|].
    rewrite map_map. f_equal. apply map_ext. intros k. apply length_fmap.
  - rewrite !calls_app.
    change (calls (EvCall m params :: map (EvLog ERROR) log))
      with ((m, params) :: calls (map (EvLog ERROR) log)).
    rewrite calls_error_log, Hcalls.
    assert (Hsub : forall l : list Z,
              calls (map (fun k => EvSubmit endpoint_type (page_params k)) l) = []).
    { induction l as [|k l IHl]; [reflexivity|exact IHl]. }
    cbn. rewrite Hsub, app_nil_r. reflexivity.
  - reflexivity.
  - reflexivity.
Qed.

(** X18.  The loop over the completed futures does not depend on the order in
    which the tasks complete for what it gathers: in whatever order the
    tables of the pages come, the table returned holds the same rows, as
    many as the pages have items.  And when a task has failed, the loop
    raises the exception of a failed task in every order: it never returns
    a table. *)
Theorem collect_in_any_order (tables : list DataFrame)
    (completed : list (Result DataFrame)) all_data_df self :
  (Permutation completed (map Ret tables) ->
   exists table,
     collect all_data_df completed self = (Ret table, self, [])
     /\ Permutation table (all_data_df ++ concat tables)
     /\ length table
        = (length all_data_df + list_sum (map (fun t => length t) tables))%nat)
  /\ ((exists e, In (Raise e) completed) ->
      exists e, In (Raise e) completed
                /\ collect all_data_df completed self = (Raise e, self, [])).
Proof.
  split.
  - intros Hperm.
    destruct (Permutation_map_inv _ _ Hperm) as (tables' & -> & Htables).
    symmetry in Htables.
    exists (all_data_df ++ concat tables'). split; [apply collect_tables|].
    split.
    + apply Permutation_app_head, concat_permutation, Htables.
    + rewrite length_app, length_concat_tables. f_equal.
      apply list_sum_permutation, Permutation_map, Htables.
  - intros (e & Hin). revert all_data_df.
    induction completed as [|future rest IH]; intros all_data_df;
      [destruct Hin|].
    cbn [collect]. run_monad. destruct future as [table|e'].
    + destruct Hin as [Habs|Hin]; [discriminate|].
      destruct (IH Hin (pd_concat all_data_df table)) as (e1 & Hin1 & Hrun).
      exists e1. split; [right; exact Hin1|]. rewrite Hrun. reflexivity.
    + exists e'. split; [left; reflexivity|reflexivity].
Qed.

Lemma collect_in_any_order_witness :
  (exists table,
     collect [] [Ret [PInt 3]; Ret [PInt 1; PInt 2]] repository
     = (Ret table, repository, [])
     /\ Permutation table ([] ++ concat [[PInt 1; PInt 2]; [PInt 3]])
     /\ length table = (0 + list_sum [2; 1])%nat)
  /\ (exists e,
        In (Raise e) [Ret [PInt 1]; Raise (ApiException 404); Raise TypeError]
        /\ collect [] [Ret [PInt 1]; Raise (ApiException 404); Raise TypeError]
             repository = (Raise e, repository, [])).
Proof.
  split.
  - apply (proj1 (collect_in_any_order [[PInt 1; PInt 2]; [PInt 3]]
                    [Ret [PInt 3]; Ret [PInt 1; PInt 2]] [] repository)).
    apply perm_swap.
  - apply (proj2 (collect_in_any_order []
                    [Ret [PInt 1]; Raise (ApiException 404); Raise TypeError]
                    [] repository)).
    exists TypeError. right. right. left. reflexivity.
Defined.

(** ** The further properties at work *)

Lemma refresh_succeeds_after_retries_witness :
  exists out,
    _refresh_access_token provider_recovers "key" "secret" [] repository
    = (Ret tt,
       set_access_token "token-1" (after_token_calls 3 repository), out)
    /\ token_requests out = 3%nat
    /\ sleeps out = map (fun j => 2 ^ Z.of_nat j) (seq 0 2)
    /\ last out = Some (EvLog INFO TokenRefreshed).
Proof.
  apply (refresh_succeeds_after_retries provider_recovers "key" "secret" []
           repository 2 "token-1").
  - lia.
  - intros i Hi. destruct i as [|[|i]]; [exists 503|exists 429|lia];
      (split; [reflexivity | apply retryable_elem_of; reflexivity]).
  - reflexivity.
Defined.

Lemma refresh_raises_unexpected_witness :
  exists out,
    _refresh_access_token provider_unreachable "key" "secret" [] repository
    = (Raise (Exception "connection reset"),
       after_token_calls 2 repository, out)
    /\ token_requests out = 2%nat
    /\ sleeps out = map (fun j => 2 ^ Z.of_nat j) (seq 0 1)
    /\ last out
       = Some (EvLog ERROR
                 (TokenRefreshUnexpected (Exception "connection reset"))).
Proof.
  apply (refresh_raises_unexpected provider_unreachable "key" "secret" []
           repository 1 (Exception "connection reset")).
  - lia.
  - intros i Hi. destruct i as [|i]; [exists 503|lia].
    split; [reflexivity | apply retryable_elem_of; reflexivity].
  - reflexivity.
  - intros status. discriminate.
Defined.

Lemma fetch_page_single_call_witness :
  fetch_data_one_page not_found CURRENCY_USD_QUOTE currency_params repository
  = (Raise (ApiException 404), count_remote_call repository,
     [EvCall (Method "currency_usd_indirect_quotation_get" 0) currency_params;
      EvLog ERROR (ApiExceptionLogged (ApiException 404))]).
Proof.
  apply (fetch_page_single_call not_found repository CURRENCY_USD_QUOTE
           currency_params (Method "currency_usd_indirect_quotation_get" 0)
           (Raise (ApiException 404))).
  - reflexivity.
  - reflexivity.
  - split; [lia | reflexivity].
Defined.

Lemma fetch_page_stops_at_unretried_witness :
  exists out,
    fetch_data_one_page expires_during_backoff CURRENCY_USD_QUOTE
      currency_params repository
    = (Raise (ApiException 401), after_calls 3 repository, out)
    /\ length (calls out) = 3%nat
    /\ sleeps out = map (fun j => 2 ^ Z.of_nat j) (seq 0 1)
    /\ token_requests out = 0%nat
    /\ refresh_invocations out = 0%nat.
Proof.
  apply (fetch_page_stops_at_unretried expires_during_backoff repository
           CURRENCY_USD_QUOTE currency_params
           (Method "currency_usd_indirect_quotation_get" 0)
           (ApiException 401) 1).
  - lia.
  - reflexivity.
  - intros i Hi. destruct i as [|[|i]]; [exists 429|exists 503|lia];
      (split; [reflexivity | apply retryable_elem_of; reflexivity]).
  - reflexivity.
  - reflexivity.
Defined.

Lemma fetch_page_keeps_endpoint_dict_witness :
  endpoint_dict (final (fetch_data_one_page token_expired CURRENCY_USD_QUOTE
                          currency_params repository))
  = constructed_endpoint_dict
  /\ Forall (eq (Method "currency_usd_indirect_quotation_get" 0,
                 currency_params))
       (calls (output (fetch_data_one_page token_expired CURRENCY_USD_QUOTE
                         currency_params repository)))
  /\ remote_calls (final (fetch_data_one_page token_expired CURRENCY_USD_QUOTE
                            currency_params repository))
     = (0 + length (calls (output (fetch_data_one_page token_expired
                                     CURRENCY_USD_QUOTE currency_params
                                     repository))))%nat.
Proof.
  apply (fetch_page_keeps_endpoint_dict token_expired CURRENCY_USD_QUOTE
           currency_params repository
           (Method "currency_usd_indirect_quotation_get" 0)).
  reflexivity.
Defined.

Lemma calls_stay_on_the_constructed_client_witness :
  Forall (fun call => bound_client call.1 = 1%nat)
    (calls (output (fetch_data_one_page token_expired CURRENCY_USD_QUOTE
                      currency_params
                      (final (__init__ token_expired "key" "secret" [] blank)))))
  /\ api_client
       (final (fetch_data_one_page token_expired CURRENCY_USD_QUOTE
                 currency_params
                 (final (__init__ token_expired "key" "secret" [] blank))))
     = 2%nat.
Proof.
  destruct (calls_stay_on_the_constructed_client token_expired "key" "secret"
              [] blank
              (final (__init__ token_expired "key" "secret" [] blank))
              (output (__init__ token_expired "key" "secret" [] blank))
              token_expired CURRENCY_USD_QUOTE currency_params eq_refl)
    as (Hcalls & _ & Hclient).
  split; [exact Hcalls|].
  apply Hclient. vm_compute. discriminate.
Defined.

Lemma fetch_one_page_rows_witness :
  result (fetch_one_data_bridges_page (serves 2500) CURRENCY_USD_QUOTE
            currency_params repository)
  = Ret [PDict (<["currency_name" := PStr "Naira"]>
                  (<["value" := PInt 1500]> ∅))]
  /\ result (fetch_one_data_bridges_page (serves 2500) ECONOMIC_DATA_VALUES
               currency_params repository_without_values)
     = Ret pd_DataFrame_empty.
Proof.
  split.
  - destruct (fetch_one_page_rows (serves 2500) CURRENCY_USD_QUOTE
                currency_params repository
                (Ret (page_result 2500 [quote 1500]))
                (after_calls 1 repository)
                [EvCall (Method "currency_usd_indirect_quotation_get" 0)
                        currency_params]
                eq_refl) as (_ & Hobjs & _).
    apply (Hobjs [<["currency_name" := PStr "Naira"]>
                    (<["value" := PInt 1500]> ∅)]).
    reflexivity.
  - destruct (fetch_one_page_rows (serves 2500) ECONOMIC_DATA_VALUES
                currency_params repository_without_values
                (Ret PNone) repository_without_values
                [EvLog ERROR (InvalidEndpoint ECONOMIC_DATA_VALUES)]
                eq_refl) as (_ & _ & _ & _ & Hnone & _).
    apply Hnone. reflexivity.
Defined.

Lemma fetch_all_concatenates_pages_witness :
  exists out,
    fetch_all_as_completed paged (@rev (Result DataFrame)) CURRENCY_USD_QUOTE
      currency_params repository
    = (Ret [PDict (<["currency_name" := PStr "Naira"]> (<["value" := PInt 3]> ∅));
            PDict (<["currency_name" := PStr "Naira"]> (<["value" := PInt 1]> ∅));
            PDict (<["currency_name" := PStr "Naira"]> (<["value" := PInt 2]> ∅))],
       after_calls 4 repository, out)
    /\ length (calls out) = 4%nat.
Proof.
  destruct (fetch_all_concatenates_pages paged (@rev (Result DataFrame))
              CURRENCY_USD_QUOTE currency_params repository
              (Method "currency_usd_indirect_quotation_get" 0)
              (page_result 2500 []) 2500 1000
              (fun k => if bool_decide (k = 1)
                        then page_result 2500 [quote 1; quote 2]
                        else if bool_decide (k = 2)
                             then page_result 2500 [quote 3]
                             else page_result 2500 [])
              (fun k => if bool_decide (k = 1)
                        then [<["currency_name" := PStr "Naira"]>
                                (<["value" := PInt 1]> ∅);
                              <["currency_name" := PStr "Naira"]>
                                (<["value" := PInt 2]> ∅)]
                        else if bool_decide (k = 2)
                             then [<["currency_name" := PStr "Naira"]>
                                     (<["value" := PInt 3]> ∅)]
                             else []))
    as (tables & out & page_calls & Hcompleted & _ & Hrun & _ & _ & Hcalls
        & Hperm & _).
  - intros completed. symmetry. apply Permutation_rev.
  - reflexivity.
  - reflexivity.
  - reflexivity.
  - right. split; reflexivity.
  - lia.
  - intros i k Hin. vm_compute in Hin.
    destruct Hin as [<-|[<-|[<-|[]]]]; reflexivity.
  - intros k Hin. vm_compute in Hin.
    destruct Hin as [<-|[<-|[<-|[]]]]; reflexivity.
  - exists out. split.
    + destruct tables as [|t1 [|t2 [|t3 [|t4 tables]]]];
        try discriminate Hcompleted.
      injection Hcompleted as <- <- <-. exact Hrun.
    + rewrite Hcalls. cbn [length]. f_equal.
      rewrite (Permutation_length Hperm). reflexivity.
Defined.

Lemma fetch_all_aborts_on_failed_page_witness :
  exists out,
    fetch_all_data_bridges_data paged_with_gap CURRENCY_USD_QUOTE
      currency_params repository
    = (Raise (ApiException 404), after_calls 4 repository, out)
    /\ length (calls out) = 4%nat.
Proof.
  destruct (fetch_all_aborts_on_failed_page paged_with_gap CURRENCY_USD_QUOTE
              currency_params repository
              (Method "currency_usd_indirect_quotation_get" 0)
              (page_result 2500 []) 2500 1000
              (fun k => three_pages true (<["page" := PInt k]> ∅))
              2 (ApiException 404))
    as (out & Hrun & Hcalls).
  - reflexivity.
  - reflexivity.
  - reflexivity.
  - right. split; reflexivity.
  - lia.
  - intros i k Hin. vm_compute in Hin.
    destruct Hin as [<-|[<-|[<-|[]]]]; reflexivity.
  - vm_compute. right. left. reflexivity.
  - reflexivity.
  - split; [lia | reflexivity].
  - intros k Hin Hne. vm_compute in Hin.
    destruct Hin as [<-|[<-|[<-|[]]]]; [|congruence|].
    + eexists. eexists. split; reflexivity.
    + eexists. eexists. split; reflexivity.
  - exists out. split; [exact Hrun|]. rewrite Hcalls. reflexivity.
Defined.

Lemma fetch_all_propagates_probe_failure_witness :
  fetch_all_data_bridges_data not_found CURRENCY_USD_QUOTE currency_params
    repository
  = (Raise (ApiException 404), after_calls 1 repository,
     [EvCall (Method "currency_usd_indirect_quotation_get" 0) currency_params;
      EvLog ERROR (ApiExceptionLogged (ApiException 404))]).
Proof.
  apply (fetch_all_propagates_probe_failure not_found CURRENCY_USD_QUOTE
           currency_params repository).
  reflexivity.
Defined.

Lemma get_total_pages_rejects_page_size_witness :
  result (get_total_pages (serves 2500) CURRENCY_USD_QUOTE
            (<["page_size" := PInt 0]> currency_params) repository)
  = Raise ZeroDivisionError
  /\ result (fetch_all_data_bridges_data (serves 2500) CURRENCY_USD_QUOTE
               (<["page_size" := PStr "1000"]> currency_params) repository)
     = Raise TypeError.
Proof.
  split.
  - destruct (proj1 (get_total_pages_rejects_page_size (serves 2500)
                       CURRENCY_USD_QUOTE
                       (<["page_size" := PInt 0]> currency_params) repository
                       (page_result 2500 [quote 1500])
                       (after_calls 1 repository)
                       [EvCall (Method "currency_usd_indirect_quotation_get" 0)
                               (<["page_size" := PInt 0]> currency_params)]
                       2500 eq_refl eq_refl) ltac:(apply lookup_insert_eq)) as (Hrun & _).
    rewrite Hrun. reflexivity.
  - destruct (proj2 (get_total_pages_rejects_page_size (serves 2500)
                       CURRENCY_USD_QUOTE
                       (<["page_size" := PStr "1000"]> currency_params)
                       repository
                       (page_result 2500 [quote 1500])
                       (after_calls 1 repository)
                       [EvCall (Method "currency_usd_indirect_quotation_get" 0)
                               (<["page_size" := PStr "1000"]> currency_params)]
                       2500 eq_refl eq_refl)
                (PStr "1000") ltac:(apply lookup_insert_eq) ltac:(discriminate))
      as (_ & Hrun).
    rewrite Hrun. reflexivity.
Defined.

Lemma fetch_all_of_unregistered_endpoint_witness :
  result (fetch_all_data_bridges_data (serves 2500) ECONOMIC_DATA_VALUES
            currency_params repository_without_values)
  = Ret pd_DataFrame_empty
  /\ calls (output (fetch_all_data_bridges_data (serves 2500)
                      ECONOMIC_DATA_VALUES currency_params
                      repository_without_values)) = [].
Proof.
  destruct (fetch_all_of_unregistered_endpoint (serves 2500)
              ECONOMIC_DATA_VALUES currency_params repository_without_values
              eq_refl) as (_ & Hrun & _).
  rewrite Hrun. split; reflexivity.
Defined.

Lemma fetch_all_submits_from_page_one_witness :
  submitted_pages
    (output (fetch_all_data_bridges_data (serves 5000) CURRENCY_USD_QUOTE
               currency_params repository))
  = map (fun i => Some (PInt (1 + Z.of_nat i))) (seq 0 (Z.to_nat 5)).
Proof.
  apply (fetch_all_submits_from_page_one (serves 5000) CURRENCY_USD_QUOTE
           currency_params repository 5).
  vm_compute. reflexivity.
Defined.
